(** * FreeRTOS-CLI: the UART command console (cli.c, cli.h, cli_cmd.c)

    A shallow embedding of the console's session code: the start-up
    routine [CliStartup], the session task [cliTask] with its line
    assembler and command dispatch loop, the authentication state machine
    [cliAuthenticate], and the two command callbacks of cli_cmd.c.

    Bytes, statuses and enum values are integers ([Z]); the two 256-byte
    buffers are lists updated by index; the FreeRTOS kernel, the FreeRTOS+CLI
    interpreter and the ASF USART driver are outside the repository and
    appear as oracles (Section variables) that script what each call
    returns. *)

From Stdlib Require Import ZArith Lia Bool String Ascii.
From stdpp Require Import base tactics list.

Open Scope Z_scope.

(** ** Constants of cli.h *)

Definition CLI_RX_BUFFER_SIZE : Z := 256.
Definition CLI_TX_BUFFER_SIZE : Z := 256.
Definition CLI_QUEUE_LENGTH : Z := 10.

Definition CLI_END_CHAR : Z := 0x0D.
Definition CLI_BS_CHAR : Z := 0x7F.
Definition CLI_NULL_CHAR : Z := 0x00.

(** The characters of a literal, as the [char] values of a C array. *)
Definition chars (s : string) : list Z :=
  map (fun a => Z.of_N (N_of_ascii a)) (list_ascii_of_string s).

(** A C string literal: its characters and the terminating NUL. The
    literals of cli.h that end in a line feed get it appended by hand. *)
Definition PASSWORD : list Z := chars "1234" ++ [0].
Definition PROMPT_PASSWORD : list Z := chars "Enter password:" ++ [0].
Definition AUTH_SUCCESS : list Z := chars "Authentication is successfull!" ++ [10; 0].
Definition AUTH_FAIL : list Z := chars "Authentication error. Try again." ++ [10; 0].

(** [Cli_UartMode_e] *)
Definition UART_RX_MODE : Z := 0.
Definition UART_TX_MODE : Z := 1.

(** [CliTxStatus_e] *)
Definition CLI_TX_COMPLETE : Z := 1.
Definition CLI_MSG_ERR : Z := 2.

(** [FSMAuthState_e]. The state is kept as the integer the enum object
    holds, so that values outside the five enumerators can be spoken of. *)
Definition FSM_LOG_IN : Z := 0.
Definition FSM_LOG_OUT : Z := 1.
Definition FSM_INPUT : Z := 2.
Definition FSM_PROCESS : Z := 3.
Definition FSM_ERR : Z := 4.

(** Values of the kernel and driver headers (FreeRTOS projdefs.h, ASF
    err_codes.h). *)
Definition pdFALSE : Z := 0.
Definition pdTRUE : Z := 1.
Definition pdPASS : Z := 1.
Definition ERR_NONE : Z := 0.
Definition NULL : Z := 0.

(** ** The C string functions used by the sources, on [char] arrays

    An array is a list; running off its end is read as meeting a NUL (the
    C code would read past the array there, which no theorem relies on). *)

Fixpoint strlen (s : list Z) : nat :=
  match s with
  | [] => 0%nat
  | c :: s' => if c =? 0 then 0%nat else S (strlen s')
  end.

(** The text of a C string: the bytes before its first NUL. *)
Definition cstr (s : list Z) : list Z := take (strlen s) s.

(** [strchr s c]: the index of the first [c] in the string, the
    terminating NUL counting as part of it; [None] for a null pointer. *)
Fixpoint strchr (s : list Z) (c : Z) : option nat :=
  match s with
  | [] => if c =? 0 then Some 0%nat else None
  | x :: s' =>
      if x =? c then Some 0%nat
      else if x =? 0 then None
      else option_map S (strchr s' c)
  end.

(** [strcspn s reject]: the length of the initial part of [s] that holds
    no character of [reject]. *)
Fixpoint strcspn (s reject : list Z) : nat :=
  match s with
  | [] => 0%nat
  | x :: s' =>
      if (x =? 0) || existsb (Z.eqb x) (cstr reject) then 0%nat
      else S (strcspn s' reject)
  end.

(** [strcmp a b]: zero when the two strings are equal, else the difference
    of the first pair of characters that differ. *)
Fixpoint strcmp (a b : list Z) : Z :=
  match a, b with
  | [], [] => 0
  | [], y :: _ => 0 - y
  | x :: _, [] => x - 0
  | x :: a', y :: b' =>
      if x =? y then (if x =? 0 then 0 else strcmp a' b') else x - y
  end.

(** [memset (buf, 0, n)] over a whole [n]-byte array. *)
Definition memset0 (n : Z) : list Z := replicate (Z.to_nat n) 0.

(** ** Control flow: statements with [break], [switch] and [do ... while]

    A statement maps a state to an outcome. [Done Normal] is normal
    completion, [Done Break] a pending [break]; [Blocked] is a task
    suspended in an unbounded queue wait that nothing ends; [Running] is
    a loop that was still iterating when the fuel (the number of
    iterations looked at) ran out. *)

Inductive ctl : Type := Normal | Break.

Inductive outcome (St : Type) : Type :=
| Done (c : ctl) (s : St)
| Blocked (s : St)
| Running (s : St).

Arguments Done {St} c s.
Arguments Blocked {St} s.
Arguments Running {St} s.

Definition stmt (St : Type) : Type := St -> outcome St.

Section Control.
Context {St : Type}.

Definition act (f : St -> St) : stmt St := fun s => Done Normal (f s).
Definition skip : stmt St := fun s => Done Normal s.
Definition break_ : stmt St := fun s => Done Break s.

(** [p ; q]: [q] runs only when [p] completes normally. *)
Definition then_ (p q : stmt St) : stmt St := fun s =>
  match p s with
  | Done Normal s' => q s'
  | o => o
  end.

Definition ifte (b : St -> bool) (p q : stmt St) : stmt St := fun s =>
  if b s then p s else q s.

(** [switch (...) { body }]: a [break] in the body leaves the switch, and
    the statement after the switch is reached normally. *)
Definition switch_ (body : stmt St) : stmt St := fun s =>
  match body s with
  | Done _ s' => Done Normal s'
  | o => o
  end.

(** [do { body } while (cond)]: a [break] reaching the loop leaves it. *)
Fixpoint do_while (fuel : nat) (body : stmt St) (cond : St -> bool) : stmt St :=
  fun s =>
    match fuel with
    | O => Running s
    | S n =>
        match body s with
        | Done Normal s' => if cond s' then do_while n body cond s' else Done Normal s'
        | Done Break s' => Done Normal s'
        | o => o
        end
    end.

(** [while (cond) { body }]. *)
Fixpoint while_ (fuel : nat) (cond : St -> bool) (body : stmt St) : stmt St :=
  fun s =>
    match fuel with
    | O => Running s
    | S n =>
        if cond s then
          match body s with
          | Done Normal s' => while_ n cond body s'
          | Done Break s' => Done Normal s'
          | o => o
          end
        else Done Normal s
    end.

(** The state an outcome stands in. *)
Definition state_of (o : outcome St) : St :=
  match o with
  | Done _ s => s
  | Blocked s => s
  | Running s => s
  end.

(** The statement completed (the enclosing function went on or returned). *)
Definition completed (o : outcome St) : bool :=
  match o with
  | Done _ _ => true
  | _ => false
  end.
End Control.

Notation "p ;;; q" := (then_ p q) (at level 90, right associativity).

(** A statement is [steady] when it holds no loop that can still be
    running: it completes, leaves a [break] pending, or stays in a wait. *)
Definition steady {St : Type} (p : stmt St) : Prop :=
  forall s, match p s with Running _ => False | _ => True end.

(** A statement [keeps] an observation of the state when the state it
    ends in, however it ends, shows the same value. *)
Definition keeps {St A : Type} (f : St -> A) (p : stmt St) : Prop :=
  forall s, f (state_of (p s)) = f s.

(** ** The CLI instance and its surroundings *)

(** [Cli_s]. Descriptors, handles and queues are the pointer values the
    program holds (0 is NULL). *)
Record Cli_s : Type := mkCli {
  io : Z;
  taskHandle : Z;
  rxQueue : Z;
  txQueue : Z;
  rxBuffer : list Z;
  txBuffer : list Z;
  rxIndex : Z;
  rxChar : Z;
  txChar : Z;
  authState : Z
}.

(** What the task does to the outside, in order. *)
Inductive Event : Type :=
| EvMode (UartMode : Z)              (* cliSetUartDirectionMode *)
| EvWrite (bytes : list Z)           (* io_write: the bytes handed over *)
| EvCliProcess (line : list Z)       (* FreeRTOS_CLIProcessCommand on this line *)
| EvTxWait (xTicksToWait : option Z) (* xQueueReceive on txQueue; None is portMAX_DELAY *)
| EvRxWait                           (* xQueueReceive on rxQueue, portMAX_DELAY *)
| EvCliCmdInit                       (* CliCmdInit: the two commands registered *)
| EvTaskCreate (taskStatus : Z).    (* xTaskCreate (cliTask, ...) and what it returned *)

(** The state the session code runs in: the static [cliInstance], the two
    direction pins, the log of outside effects, and how many times each
    oracle has been asked. *)
Record World : Type := mkWorld {
  cliInstance : Cli_s;
  SERVICE_UART_RX_EN : bool;
  SERVICE_UART_TX_EN : bool;
  trace : list Event;
  cliCalls : nat;
  txWaits : nat;
  rxWaits : nat
}.

Definition with_cli (f : Cli_s -> Cli_s) (w : World) : World :=
  mkWorld (f (cliInstance w)) (SERVICE_UART_RX_EN w) (SERVICE_UART_TX_EN w)
          (trace w) (cliCalls w) (txWaits w) (rxWaits w).

Definition log (e : Event) (w : World) : World :=
  mkWorld (cliInstance w) (SERVICE_UART_RX_EN w) (SERVICE_UART_TX_EN w)
          (trace w ++ [e]) (cliCalls w) (txWaits w) (rxWaits w).

Definition set_pins (rx_en tx_en : bool) (w : World) : World :=
  mkWorld (cliInstance w) rx_en tx_en (trace w) (cliCalls w) (txWaits w) (rxWaits w).

Definition count_cliCall (w : World) : World :=
  mkWorld (cliInstance w) (SERVICE_UART_RX_EN w) (SERVICE_UART_TX_EN w)
          (trace w) (S (cliCalls w)) (txWaits w) (rxWaits w).

Definition count_txWait (w : World) : World :=
  mkWorld (cliInstance w) (SERVICE_UART_RX_EN w) (SERVICE_UART_TX_EN w)
          (trace w) (cliCalls w) (S (txWaits w)) (rxWaits w).

Definition count_rxWait (w : World) : World :=
  mkWorld (cliInstance w) (SERVICE_UART_RX_EN w) (SERVICE_UART_TX_EN w)
          (trace w) (cliCalls w) (txWaits w) (S (rxWaits w)).

Definition set_io (v : Z) (c : Cli_s) : Cli_s :=
  mkCli v (taskHandle c) (rxQueue c) (txQueue c) (rxBuffer c) (txBuffer c)
        (rxIndex c) (rxChar c) (txChar c) (authState c).
Definition set_taskHandle (v : Z) (c : Cli_s) : Cli_s :=
  mkCli (io c) v (rxQueue c) (txQueue c) (rxBuffer c) (txBuffer c)
        (rxIndex c) (rxChar c) (txChar c) (authState c).
Definition set_rxQueue (v : Z) (c : Cli_s) : Cli_s :=
  mkCli (io c) (taskHandle c) v (txQueue c) (rxBuffer c) (txBuffer c)
        (rxIndex c) (rxChar c) (txChar c) (authState c).
Definition set_txQueue (v : Z) (c : Cli_s) : Cli_s :=
  mkCli (io c) (taskHandle c) (rxQueue c) v (rxBuffer c) (txBuffer c)
        (rxIndex c) (rxChar c) (txChar c) (authState c).
Definition set_rxBuffer (v : list Z) (c : Cli_s) : Cli_s :=
  mkCli (io c) (taskHandle c) (rxQueue c) (txQueue c) v (txBuffer c)
        (rxIndex c) (rxChar c) (txChar c) (authState c).
Definition set_txBuffer (v : list Z) (c : Cli_s) : Cli_s :=
  mkCli (io c) (taskHandle c) (rxQueue c) (txQueue c) (rxBuffer c) v
        (rxIndex c) (rxChar c) (txChar c) (authState c).
Definition set_rxIndex (v : Z) (c : Cli_s) : Cli_s :=
  mkCli (io c) (taskHandle c) (rxQueue c) (txQueue c) (rxBuffer c) (txBuffer c)
        v (rxChar c) (txChar c) (authState c).
Definition set_rxChar (v : Z) (c : Cli_s) : Cli_s :=
  mkCli (io c) (taskHandle c) (rxQueue c) (txQueue c) (rxBuffer c) (txBuffer c)
        (rxIndex c) v (txChar c) (authState c).
Definition set_txChar (v : Z) (c : Cli_s) : Cli_s :=
  mkCli (io c) (taskHandle c) (rxQueue c) (txQueue c) (rxBuffer c) (txBuffer c)
        (rxIndex c) (rxChar c) v (authState c).
Definition set_authState (v : Z) (c : Cli_s) : Cli_s :=
  mkCli (io c) (taskHandle c) (rxQueue c) (txQueue c) (rxBuffer c) (txBuffer c)
        (rxIndex c) (rxChar c) (txChar c) v.

(** [uint16_t] arithmetic of [rxIndex]. *)
Definition u16 (x : Z) : Z := x mod 65536.

(** [a[i] = v] on an array held as a list. An index outside the list
    leaves it as it is (the C store would land outside the array). *)
Definition store (i : Z) (v : Z) (a : list Z) : list Z :=
  if i <? 0 then a else <[Z.to_nat i := v]> a.

(** Receive mode, as [cliSetUartDirectionMode] sets the two pins for it. *)
Definition in_rx_mode (w : World) : bool :=
  negb (SERVICE_UART_RX_EN w) && negb (SERVICE_UART_TX_EN w).

(** ** cli.c: direction control and start-up *)

(** The two pin levels per mode; any other mode value trips [ASSERT (0)]
    and leaves the pins alone. *)
Definition cliSetUartDirectionMode (UartMode : Z) (w : World) : World :=
  let w := log (EvMode UartMode) w in
  if UartMode =? UART_RX_MODE then set_pins false false w
  else if UartMode =? UART_TX_MODE then set_pins true true w
  else w.

Definition io_write (bytes : list Z) (w : World) : World := log (EvWrite bytes) w.

(** What the driver and the kernel answer during start-up. *)
Record StartupEnv : Type := mkStartupEnv {
  usart_async_get_io_descriptor : Z * Z;   (* the result, and the descriptor stored in io *)
  xQueueCreate_rx : Z;
  xQueueCreate_tx : Z;
  register_RXC_CB : Z;
  register_TXC_CB : Z;
  register_ERROR_CB : Z;
  usart_async_enable : Z;
  xTaskCreate : Z * Z                      (* the result, and the handle stored *)
}.

(** The state of [CliStartup]: the world and the local [status]. *)
Record Startup : Type := mkStartup { world : World; status : Z }.

Definition in_world (f : World -> World) (s : Startup) : Startup :=
  mkStartup (f (world s)) (status s).
Definition set_status (v : Z) (s : Startup) : Startup := mkStartup (world s) v.

Definition CliStartup_body (e : StartupEnv) : stmt Startup :=
  act (in_world (cliSetUartDirectionMode UART_RX_MODE)) ;;;
  act (in_world (with_cli (set_io (snd (usart_async_get_io_descriptor e))))) ;;;
  ifte (fun s => negb (fst (usart_async_get_io_descriptor e) =? ERR_NONE)
                 || (io (cliInstance (world s)) =? NULL))
       break_ skip ;;;
  act (in_world (with_cli (set_rxIndex 0))) ;;;
  act (in_world (with_cli (set_rxBuffer (memset0 CLI_RX_BUFFER_SIZE)))) ;;;
  act (in_world (with_cli (set_txBuffer (memset0 CLI_TX_BUFFER_SIZE)))) ;;;
  act (in_world (with_cli (set_rxQueue (xQueueCreate_rx e)))) ;;;
  act (in_world (with_cli (set_txQueue (xQueueCreate_tx e)))) ;;;
  ifte (fun s => (rxQueue (cliInstance (world s)) =? NULL)
                 || (txQueue (cliInstance (world s)) =? NULL))
       (act (set_status (-1)) ;;; break_) skip ;;;
  act (in_world (log EvCliCmdInit)) ;;;
  ifte (fun _ => negb (register_RXC_CB e =? ERR_NONE)
                 || negb (register_TXC_CB e =? ERR_NONE)
                 || negb (register_ERROR_CB e =? ERR_NONE))
       (act (set_status (-2)) ;;; break_) skip ;;;
  ifte (fun _ => negb (usart_async_enable e =? ERR_NONE))
       (act (set_status (-3)) ;;; break_) skip ;;;
  act (in_world (cliSetUartDirectionMode UART_RX_MODE)) ;;;
  act (in_world (fun w =>
         log (EvTaskCreate (fst (xTaskCreate e)))
             (if fst (xTaskCreate e) =? pdPASS
              then with_cli (set_taskHandle (snd (xTaskCreate e))) w else w))) ;;;
  ifte (fun _ => negb (fst (xTaskCreate e) =? pdPASS))
       (act (set_status (-4)) ;;; break_) skip.

(** [int16_t CliStartup (void)]: [status] starts at 0, the body runs once
    inside [do ... while (0)], and [status] is returned. *)
Definition CliStartup (e : StartupEnv) (w : World) : Z * World :=
  let s := state_of (do_while 1 (CliStartup_body e) (fun _ => false) (mkStartup w 0)) in
  (status s, world s).

(** [cliInstance.rxBuffer[cliInstance.rxIndex] = CLI_NULL_CHAR]: the first
    statement of the carriage-return arm of the task. *)
Definition terminate_line (w : World) : World :=
  with_cli (fun c => set_rxBuffer (store (rxIndex c) CLI_NULL_CHAR (rxBuffer c)) c) w.

(** The session task exists after start-up. *)
Definition task_created (w : World) : bool :=
  existsb (fun ev => match ev with EvTaskCreate r => r =? pdPASS | _ => false end) (trace w).

(** ** cli_cmd.c: the command callbacks *)

Definition hello : list Z := chars "Hello world " ++ [13; 10; 0].
Definition version : list Z := chars "CLI Version 1.0.0 " ++ [13; 10; 0].

(** Memory the callbacks write to: a byte per address. *)
Definition mem : Type := Z -> Z.

Fixpoint store_bytes (a : Z) (bytes : list Z) (m : mem) : mem :=
  match bytes with
  | [] => m
  | b :: rest => store_bytes (a + 1) rest (fun x => if x =? a then b else m x)
  end.

(** [strcpy (dst, src)]: the characters of [src] and its NUL, whatever
    room [dst] has. *)
Definition strcpy (dst : Z) (src : list Z) (m : mem) : mem :=
  store_bytes dst (cstr src ++ [0]) m.

Definition cliCallbackHelloCommand (pcWriteBuffer : Z) (xWriteBufferLen : Z)
    (pcCommandString : Z) (m : mem) : Z * mem :=
  if (pcWriteBuffer =? NULL) || (xWriteBufferLen =? 0) then (pdFALSE, m)
  else if Z.of_nat (strlen hello) >? xWriteBufferLen then (pdFALSE, m)
  else (pdFALSE, strcpy pcWriteBuffer hello m).

Definition cliCallbackVersionCommand (pcWriteBuffer : Z) (xWriteBufferLen : Z)
    (pcCommandString : Z) (m : mem) : Z * mem :=
  if (pcWriteBuffer =? NULL) || (xWriteBufferLen =? 0) then (pdFALSE, m)
  else if Z.of_nat (strlen version) >? xWriteBufferLen then (pdFALSE, m)
  else (pdFALSE, strcpy pcWriteBuffer version m).

(** ** cli.c: the session task *)

Section Session.
(** The interpreter of FreeRTOS+CLI: what its [k]-th call, given the
    line, returns and leaves in [txBuffer]. *)
Variable FreeRTOS_CLIProcessCommand : nat -> list Z -> Z * list Z.
(** What the [k]-th receive on [txQueue] yields: the status byte an
    interrupt handler queued, or nothing for as long as the call waits. *)
Variable txQueueFeed : nat -> option Z.
(** What the [k]-th receive on [rxQueue] yields. *)
Variable rxQueueFeed : nat -> option Z.

(** [xQueueReceive (queue, &item, xTicksToWait)]: with an item the
    continuation for it runs; with none, a bounded wait times out and an
    unbounded one ([None], portMAX_DELAY) never comes back. *)
Definition xQueueReceive (feed : option Z) (xTicksToWait : option Z)
    (on_item : Z -> stmt World) (on_timeout : stmt World) : stmt World :=
  match feed, xTicksToWait with
  | Some c, _ => on_item c
  | None, Some _ => on_timeout
  | None, None => fun w => Blocked w
  end.

Definition cliSendMessage (message : list Z) : stmt World :=
  act (cliSetUartDirectionMode UART_TX_MODE) ;;;
  act (io_write (cstr message)) ;;;
  (fun w =>
     xQueueReceive (txQueueFeed (txWaits w)) None
       (fun c => act (with_cli (set_txChar c)))
       skip
       (count_txWait (log (EvTxWait None) w))) ;;;
  act (cliSetUartDirectionMode UART_RX_MODE).

(** *** The authentication state machine *)

Definition auth_LOG_IN : stmt World :=
  act (with_cli (set_rxBuffer (memset0 CLI_RX_BUFFER_SIZE))) ;;;
  cliSendMessage PROMPT_PASSWORD ;;;
  act (with_cli (set_rxIndex 0)) ;;;
  act (with_cli (set_authState FSM_INPUT)) ;;;
  break_.

Definition auth_INPUT : stmt World :=
  ifte (fun w => bool_decide (is_Some (strchr (rxBuffer (cliInstance w)) 10)))
       (act (with_cli (set_authState FSM_PROCESS)))
       skip ;;;
  break_.

(** The arm between [FSM_INPUT] and [FSM_ERR]. Its [case] line in cli.c
    carries no constant; it is the arm of [FSM_PROCESS], the one state the
    machine sets that has no other label. *)
Definition auth_PROCESS : stmt World :=
  act (with_cli (fun c =>
         set_rxBuffer (store (Z.of_nat (strcspn (rxBuffer c) [13; 10; 0])) 0 (rxBuffer c)) c)) ;;;
  ifte (fun w => strcmp (rxBuffer (cliInstance w)) PASSWORD =? 0)
       (act (with_cli (set_rxBuffer (memset0 CLI_RX_BUFFER_SIZE))) ;;;
        act (with_cli (set_authState FSM_LOG_OUT)) ;;;
        cliSendMessage AUTH_SUCCESS)
       (act (with_cli (set_authState FSM_ERR))) ;;;
  break_.

Definition auth_ERR : stmt World :=
  cliSendMessage AUTH_FAIL ;;;
  act (with_cli (set_rxBuffer (memset0 CLI_RX_BUFFER_SIZE))) ;;;
  act (with_cli (set_rxIndex 0)) ;;;
  act (with_cli (set_authState FSM_LOG_IN)) ;;;
  break_.

Definition auth_default : stmt World :=
  act (with_cli (set_authState FSM_ERR)) ;;;
  break_.

(** One pass through [switch (cliInstance.authState)]: one step of the
    machine. *)
Definition authSwitch : stmt World :=
  switch_ (fun w =>
    let st := authState (cliInstance w) in
    if st =? FSM_LOG_IN then auth_LOG_IN w
    else if st =? FSM_INPUT then auth_INPUT w
    else if st =? FSM_PROCESS then auth_PROCESS w
    else if st =? FSM_ERR then auth_ERR w
    else auth_default w).

(** [do { switch ... } while (1);] *)
Definition cliAuthenticate (fuel : nat) : stmt World :=
  do_while fuel authSwitch (fun _ => true).

(** *** The session task: line assembler and command dispatch loop *)

(** One round of the dispatch loop. [returnStatus] and [queueBuff] are
    locals of the task. *)
Definition dispatchRound : stmt World := fun w =>
  let line := cstr (rxBuffer (cliInstance w)) in
  let '(returnStatus, tx) := FreeRTOS_CLIProcessCommand (cliCalls w) line in
  (act (fun w => count_cliCall (log (EvCliProcess line) (with_cli (set_txBuffer tx) w))) ;;;
   act (cliSetUartDirectionMode UART_TX_MODE) ;;;
   act (fun w => io_write (cstr (txBuffer (cliInstance w))) w) ;;;
   (fun w =>
      let after_wait (queueBuff : Z) : stmt World :=
        if (returnStatus =? pdFALSE) || (queueBuff =? 2) then break_ else skip in
      xQueueReceive (txQueueFeed (txWaits w)) (Some 1000)
        (fun c => after_wait c)
        (after_wait 0)
        (count_txWait (log (EvTxWait (Some 1000)) w)))) w.

Definition dispatchLoop (fuel : nat) : stmt World :=
  do_while fuel dispatchRound (fun _ => true).

Definition case_END_CHAR (fuel : nat) : stmt World :=
  act terminate_line ;;;
  dispatchLoop fuel ;;;
  act (cliSetUartDirectionMode UART_RX_MODE) ;;;
  act (with_cli (set_rxIndex 0)) ;;;
  break_.

Definition case_BS_CHAR : stmt World :=
  ifte (fun w => 0 <? rxIndex (cliInstance w))
       (act (with_cli (fun c => set_rxIndex (u16 (rxIndex c - 1)) c)) ;;;
        act (with_cli (fun c => set_rxBuffer (store (rxIndex c) CLI_NULL_CHAR (rxBuffer c)) c)))
       skip ;;;
  break_.

Definition case_default : stmt World :=
  ifte (fun w => rxIndex (cliInstance w) <? CLI_RX_BUFFER_SIZE - 1)
       (act (with_cli (fun c =>
          set_rxIndex (u16 (rxIndex c + 1))
            (set_rxBuffer (store (rxIndex c) (rxChar c) (rxBuffer c)) c))))
       skip ;;;
  break_.

(** [switch (cliInstance.rxChar)]: the processing of one received byte. *)
Definition rxSwitch (fuel : nat) : stmt World :=
  switch_ (fun w =>
    let c := rxChar (cliInstance w) in
    if c =? CLI_END_CHAR then case_END_CHAR fuel w
    else if c =? CLI_BS_CHAR then case_BS_CHAR w
    else case_default w).

(** A byte taken from [rxQueue] into [rxChar], then processed. *)
Definition deliver (fuel : nat) (c : Z) : stmt World :=
  act (with_cli (set_rxChar c)) ;;; rxSwitch fuel.

(** Bytes delivered one at a time, in order. *)
Fixpoint deliverAll (fuel : nat) (bytes : list Z) : stmt World :=
  match bytes with
  | [] => skip
  | c :: rest => deliver fuel c ;;; deliverAll fuel rest
  end.

Definition cliTask (fuel : nat) : stmt World :=
  act (with_cli (set_authState FSM_LOG_IN)) ;;;
  while_ fuel (fun _ => true)
    (cliAuthenticate fuel ;;;
     (fun w =>
        xQueueReceive (rxQueueFeed (rxWaits w)) None
          (fun c => deliver fuel c)
          skip
          (count_rxWait (log EvRxWait w)))).
End Session.

(** ** The specification's wording, as functions *)

(** Backspaces applied left to right: each one removes the character
    before it, and does nothing on an empty line. *)
Definition backspace_step (acc : list Z) (c : Z) : list Z :=
  if c =? CLI_BS_CHAR then removelast acc else acc ++ [c].

Definition apply_backspaces (bytes : list Z) : list Z :=
  fold_left backspace_step bytes [].

(** The line as the specification words it: backspaces applied, then cut
    to capacity - 1 characters. *)
Definition spec_line (bytes : list Z) : list Z :=
  take (Z.to_nat (CLI_RX_BUFFER_SIZE - 1)) (apply_backspaces bytes).

(** The line as the assembler builds it: a character is kept only while
    fewer than capacity - 1 are held, and a backspace removes the last
    character held. *)
Definition assemble_step (acc : list Z) (c : Z) : list Z :=
  if c =? CLI_BS_CHAR then removelast acc
  else if Z.of_nat (length acc) <? CLI_RX_BUFFER_SIZE - 1 then acc ++ [c]
  else acc.

Definition assemble (bytes : list Z) : list Z :=
  fold_left assemble_step bytes [].

(** A line with its trailing CR and LF characters stripped. *)
Definition is_crlf (c : Z) : bool := (c =? 13) || (c =? 10).

Fixpoint strip_trailing_crlf (line : list Z) : list Z :=
  match line with
  | [] => []
  | c :: rest =>
      match strip_trailing_crlf rest with
      | [] => if is_crlf c then [] else [c]
      | rest' => c :: rest'
      end
  end.

(** A line up to its first CR or LF. *)
Fixpoint upto_crlf (line : list Z) : list Z :=
  match line with
  | [] => []
  | c :: rest => if is_crlf c then [] else c :: upto_crlf rest
  end.

(** A dispatch round ends the loop: the interpreter reported no more
    output, or the status event consumed is Failed. *)
Definition round_stops (returnStatus : Z) (event : option Z) : bool :=
  (returnStatus =? pdFALSE) || bool_decide (event = Some CLI_MSG_ERR).

(** What one round of the dispatch loop does to the outside: the [i]-th
    interpreter call on the line, Transmit mode, the write of what the
    interpreter left, the bounded wait. *)
Definition round_events (interp : nat -> list Z -> Z * list Z) (line : list Z) (i : nat)
    : list Event :=
  [EvCliProcess line; EvMode UART_TX_MODE;
   EvWrite (cstr (snd (interp i line))); EvTxWait (Some 1000)].

(** The world after one round of the dispatch loop. *)
Definition round_world (interp : nat -> list Z -> Z * list Z) (w : World) : World :=
  let line := cstr (rxBuffer (cliInstance w)) in
  let tx := snd (interp (cliCalls w) line) in
  count_txWait
    (log (EvTxWait (Some 1000))
       (io_write (cstr tx)
          (cliSetUartDirectionMode UART_TX_MODE
             (count_cliCall (log (EvCliProcess line) (with_cli (set_txBuffer tx) w)))))).

(** The world [n] rounds of the dispatch loop later. *)
Fixpoint rounds (interp : nat -> list Z -> Z * list Z) (n : nat) (w : World) : World :=
  match n with
  | O => w
  | S m => rounds interp m (round_world interp w)
  end.

(** Whether the round that comes [j] rounds after world [w] ends the loop. *)
Definition stops_after (interp : nat -> list Z -> Z * list Z) (feed : nat -> option Z)
    (w : World) (j : nat) : bool :=
  round_stops (fst (interp (cliCalls w + j)%nat (cstr (rxBuffer (cliInstance w)))))
              (feed (txWaits w + j)%nat).

(** The line assembler holds the characters [acc]: they fill the buffer
    up to the cursor. *)
Definition holds (w : World) (acc : list Z) : Prop :=
  rxIndex (cliInstance w) = Z.of_nat (length acc)
  /\ take (length acc) (rxBuffer (cliInstance w)) = acc
  /\ length (rxBuffer (cliInstance w)) = Z.to_nat CLI_RX_BUFFER_SIZE
  /\ (length acc < Z.to_nat CLI_RX_BUFFER_SIZE)%nat.


(** ** Concrete inputs *)

(** The instance as the C start-up zeroes it, in Receive mode. *)
Definition cli_zero : Cli_s :=
  mkCli 0 0 0 0 (memset0 CLI_RX_BUFFER_SIZE) (memset0 CLI_TX_BUFFER_SIZE) 0 0 0 FSM_LOG_IN.
Definition world_zero : World := mkWorld cli_zero false false [] 0 0 0.

Definition world_in (st : Z) : World := with_cli (set_authState st) world_zero.

(** A world in the Verifying state whose buffer holds the given bytes. *)
Definition world_verifying (line : list Z) : World :=
  with_cli (fun c => set_authState FSM_PROCESS
                       (set_rxBuffer (line ++ drop (length line) (rxBuffer c)) c))
           world_zero.

(** An interpreter with one chunk of output per command. *)
Definition interp_once (k : nat) (line : list Z) : Z * list Z :=
  (pdFALSE, chars "ok" ++ [0]).
(** An interpreter whose first call reports more output pending. *)
Definition interp_two_chunks (k : nat) (line : list Z) : Z * list Z :=
  match k with
  | O => (pdTRUE, chars "ab" ++ [0])
  | _ => (pdFALSE, chars "cd" ++ [0])
  end.
(** An interpreter that always reports more output pending. *)
Definition interp_endless (k : nat) (line : list Z) : Z * list Z :=
  (pdTRUE, chars "more" ++ [0]).

(** Every transmission completes. *)
Definition tx_all_complete (k : nat) : option Z := Some CLI_TX_COMPLETE.
(** The first wait times out, later transmissions complete. *)
Definition tx_first_timeout (k : nat) : option Z :=
  match k with
  | O => None
  | _ => Some CLI_TX_COMPLETE
  end.
(** The second transmission fails. *)
Definition tx_second_fails (k : nat) : option Z :=
  match k with
  | 1%nat => Some CLI_MSG_ERR
  | _ => Some CLI_TX_COMPLETE
  end.

(** The world after '1','2','3','4' and a carriage return were delivered
    in the Collecting state, the interpreter answering in one chunk. *)
Definition world_1234_cr : World :=
  state_of (deliverAll interp_once tx_all_complete 3
              (chars "1234" ++ [CLI_END_CHAR]) (world_in FSM_INPUT)).

(** 256 characters, then a backspace. *)
Definition overflow_bytes : list Z := replicate 256 97 ++ [CLI_BS_CHAR].

(** Start-up answers: everything succeeds; the descriptor is refused. *)
Definition env_all_ok : StartupEnv := mkStartupEnv (ERR_NONE, 7) 11 12 0 0 0 0 (pdPASS, 13).
Definition env_no_descriptor : StartupEnv := mkStartupEnv (-1, 0) 11 12 0 0 0 0 (pdPASS, 13).
Definition env_no_queue : StartupEnv := mkStartupEnv (ERR_NONE, 7) 11 0 0 0 0 0 (pdPASS, 13).
Definition env_no_callback : StartupEnv :=
  mkStartupEnv (ERR_NONE, 7) 11 12 0 (-13) 0 0 (pdPASS, 13).
Definition env_no_enable : StartupEnv := mkStartupEnv (ERR_NONE, 7) 11 12 0 0 0 (-1) (pdPASS, 13).
Definition env_no_task : StartupEnv := mkStartupEnv (ERR_NONE, 7) 11 12 0 0 0 0 (-1, 0).

(** Memory filled with 0xFF. *)
Definition mem_ff : mem := fun _ => 255.

(** ** cli.c: the interrupt handlers

    The handlers run against the two FreeRTOS queues themselves. A queue
    is the list of its items, oldest first, with room for
    [CLI_QUEUE_LENGTH] of them, as [CliStartup] creates it. *)

Definition errQUEUE_FULL : Z := 0.

(** [xQueueSendFromISR (queue, &item, ...)]: the item goes to the back of
    the queue when there is room; the call never waits. *)
Definition xQueueSendFromISR (items : list Z) (item : Z) : Z * list Z :=
  if Z.of_nat (length items) <? CLI_QUEUE_LENGTH then (pdPASS, items ++ [item])
  else (errQUEUE_FULL, items).

(** What the handlers see and change: the instance, the descriptor
    [cliInstance.uart] (which [Cli_s] above leaves out), the items of the
    two queues, the context switches requested and the assertions tripped. *)
Record Isr : Type := mkIsr {
  isr_cli : Cli_s;
  isr_uart : Z;
  rxItems : list Z;
  txItems : list Z;
  yields : nat;
  asserts : nat
}.

Definition isr_with_cli (f : Cli_s -> Cli_s) (s : Isr) : Isr :=
  mkIsr (f (isr_cli s)) (isr_uart s) (rxItems s) (txItems s) (yields s) (asserts s).
Definition set_rxItems (q : list Z) (s : Isr) : Isr :=
  mkIsr (isr_cli s) (isr_uart s) q (txItems s) (yields s) (asserts s).
Definition set_txItems (q : list Z) (s : Isr) : Isr :=
  mkIsr (isr_cli s) (isr_uart s) (rxItems s) q (yields s) (asserts s).
(** [portYIELD_FROM_ISR (xHigherPriorityTaskWoken)] *)
Definition portYIELD_FROM_ISR (woken : Z) (s : Isr) : Isr :=
  if woken =? pdFALSE then s
  else mkIsr (isr_cli s) (isr_uart s) (rxItems s) (txItems s) (S (yields s)) (asserts s).
(** [ASSERT (0)] *)
Definition ASSERT_0 (s : Isr) : Isr :=
  mkIsr (isr_cli s) (isr_uart s) (rxItems s) (txItems s) (yields s) (S (asserts s)).

(** [cliRxReceivedCb]. [io_read] is what the driver's read of one byte
    answers: its result and, when that is positive, the byte it stored in
    [rxChar]; [woken] is the flag the kernel sets during the send. *)
Definition cliRxReceivedCb_body (io_read : Z * Z) (woken : Z) : stmt Isr :=
  ifte (fun s => io (isr_cli s) =? NULL) break_ skip ;;;
  act (fun s => if 0 <? fst io_read then isr_with_cli (set_rxChar (snd io_read)) s else s) ;;;
  ifte (fun _ => fst io_read <=? 0) break_ skip ;;;
  (fun s =>
     let '(queueSendStatus, q) := xQueueSendFromISR (rxItems s) (rxChar (isr_cli s)) in
     (act (set_rxItems q) ;;;
      ifte (fun _ => negb (queueSendStatus =? pdPASS)) break_ skip ;;;
      act (portYIELD_FROM_ISR woken)) s).

Definition cliRxReceivedCb (uart : Z) (io_read : Z * Z) (woken : Z) (s : Isr) : Isr :=
  state_of (do_while 1 (cliRxReceivedCb_body io_read woken) (fun _ => false) s).

(** The body shared by [cliTxCompletedCb] and [cliRxTxErr], which differ in
    the message they queue. The queue takes the one byte of the message. *)
Definition tx_status_body (uart : Z) (msg : Z) : stmt Isr :=
  ifte (fun s => (io (isr_cli s) =? NULL) || negb (isr_uart s =? uart)) break_ skip ;;;
  (fun s =>
     let '(queueReceiveStatus, q) := xQueueSendFromISR (txItems s) msg in
     (act (set_txItems q) ;;;
      ifte (fun _ => queueReceiveStatus =? pdFALSE) (act ASSERT_0) skip) s).

Definition cliTxCompletedCb (uart : Z) (s : Isr) : Isr :=
  state_of (do_while 1 (tx_status_body uart CLI_TX_COMPLETE) (fun _ => false) s).

Definition cliRxTxErr (uart : Z) (s : Isr) : Isr :=
  state_of (do_while 1 (tx_status_body uart CLI_MSG_ERR) (fun _ => false) s).

(** The receive handler run once per byte the driver hands over; each
    byte comes with the flag the kernel sets during its send. *)
Fixpoint receiveAll (uart : Z) (bytes : list (Z * Z)) (s : Isr) : Isr :=
  match bytes with
  | [] => s
  | (b, woken) :: rest => receiveAll uart rest (cliRxReceivedCb uart (1, b) woken s)
  end.

(** ** Further descriptions used in the statements *)

(** The world once [cliSendMessage] has put its message out and is in the
    wait for the status, and the world once a status byte has ended it. *)
Definition sending (message : list Z) (w : World) : World :=
  count_txWait (log (EvTxWait None)
    (io_write (cstr message) (cliSetUartDirectionMode UART_TX_MODE w))).

Definition sent (message : list Z) (c : Z) (w : World) : World :=
  cliSetUartDirectionMode UART_RX_MODE (with_cli (set_txChar c) (sending message w)).

(** What one message shows on the outside. *)
Definition message_events (message : list Z) : list Event :=
  [EvMode UART_TX_MODE; EvWrite (cstr message); EvTxWait None; EvMode UART_RX_MODE].

(** The line buffer is a whole array, its last byte is NUL, and the
    cursor is inside it. *)
Definition buffer_ok (w : World) : Prop :=
  0 <= rxIndex (cliInstance w) <= CLI_RX_BUFFER_SIZE - 1
  /\ length (rxBuffer (cliInstance w)) = Z.to_nat CLI_RX_BUFFER_SIZE
  /\ rxBuffer (cliInstance w) !! Z.to_nat (CLI_RX_BUFFER_SIZE - 1) = Some CLI_NULL_CHAR.

(** All five start-up steps succeed. *)
Definition startup_ok (e : StartupEnv) : bool :=
  (fst (usart_async_get_io_descriptor e) =? ERR_NONE)
  && negb (snd (usart_async_get_io_descriptor e) =? NULL)
  && negb (xQueueCreate_rx e =? NULL) && negb (xQueueCreate_tx e =? NULL)
  && (register_RXC_CB e =? ERR_NONE) && (register_TXC_CB e =? ERR_NONE)
  && (register_ERROR_CB e =? ERR_NONE)
  && (usart_async_enable e =? ERR_NONE)
  && (fst (xTaskCreate e) =? pdPASS).

(** An outcome with its state changed. *)
Definition outcome_map {St : Type} (f : St -> St) (o : outcome St) : outcome St :=
  match o with
  | Done c s => Done c (f s)
  | Blocked s => Blocked (f s)
  | Running s => Running (f s)
  end.

(** An interrupt state with the descriptors set and both queues empty. *)
Definition isr_zero : Isr := mkIsr (set_io 7 cli_zero) 5 [] [] 0 0.

(** * Theorems *)

(** ** Control flow *)

Lemma do_while_forever {St : Type} (body : stmt St) (fuel : nat) :
  (forall s, match body s with
             | Done Normal _ | Blocked _ => True
             | _ => False
             end) ->
  forall s, completed (do_while fuel body (fun _ => true) s) = false.
Proof.
  intros Hbody. induction fuel as [|n IH]; intros s; simpl; [reflexivity|].
  specialize (Hbody s). destruct (body s) as [[|] s'| s' | s']; simpl; try tauto.
  apply IH.
Qed.

Lemma do_while_preserves {St A : Type} (f : St -> A) (body : stmt St)
    (cond : St -> bool) (fuel : nat) :
  (forall s, f (state_of (body s)) = f s) ->
  forall s, f (state_of (do_while fuel body cond s)) = f s.
Proof.
  intros Hbody. induction fuel as [|n IH]; intros s; simpl; [reflexivity|].
  specialize (Hbody s). destruct (body s) as [[|] s'| s' | s']; simpl in *; try assumption.
  destruct (cond s'); simpl; [rewrite IH|]; assumption.
Qed.

Section ControlFacts.
Context {St A : Type} (f : St -> A).

Lemma steady_act (g : St -> St) : steady (act g).
Proof. intros s; exact I. Qed.
Lemma steady_skip : steady (@skip St).
Proof. intros s; exact I. Qed.
Lemma steady_break : steady (@break_ St).
Proof. intros s; exact I. Qed.
Lemma steady_seq (p q : stmt St) : steady p -> steady q -> steady (p ;;; q).
Proof.
  intros Hp Hq s. unfold then_. specialize (Hp s).
  destruct (p s) as [[|] s'|s'|s']; try exact I; [apply Hq | destruct Hp].
Qed.
Lemma steady_ifte (b : St -> bool) (p q : stmt St) :
  steady p -> steady q -> steady (ifte b p q).
Proof. intros Hp Hq s. unfold ifte. destruct (b s); [apply Hp | apply Hq]. Qed.

Lemma switch_steady (body : stmt St) (s : St) :
  steady body ->
  match switch_ body s with
  | Done Normal _ | Blocked _ => True
  | _ => False
  end.
Proof.
  intros Hb. unfold switch_. specialize (Hb s).
  destruct (body s) as [[|] s'|s'|s']; auto.
Qed.

(** A statement that does not complete stops what follows it, and the
    loop it is the body of. *)
Lemma then_stuck (p q : stmt St) (s : St) :
  completed (p s) = false -> (p ;;; q) s = p s.
Proof. unfold then_. destruct (p s) as [[|] s'|s'|s']; simpl; congruence. Qed.

Lemma then_stuck_or_skip (p : stmt St) (s : St) :
  state_of ((p ;;; skip) s) = state_of (p s).
Proof. unfold then_, skip. destruct (p s) as [[|] s'|s'|s']; reflexivity. Qed.

Lemma while_stuck (n : nat) (body : stmt St) (s : St) :
  completed (body s) = false ->
  while_ (S n) (fun _ => true) body s = body s.
Proof. simpl. destruct (body s) as [[|] s'|s'|s']; simpl; congruence. Qed.

Lemma keeps_act (g : St -> St) : (forall s, f (g s) = f s) -> keeps f (act g).
Proof. intros H s; apply H. Qed.
Lemma keeps_skip : keeps f skip.
Proof. intros s; reflexivity. Qed.
Lemma keeps_break : keeps f break_.
Proof. intros s; reflexivity. Qed.
Lemma keeps_seq (p q : stmt St) : keeps f p -> keeps f q -> keeps f (p ;;; q).
Proof.
  intros Hp Hq s. unfold then_. specialize (Hp s).
  destruct (p s) as [[|] s'|s'|s']; simpl in *; try assumption.
  rewrite Hq. assumption.
Qed.
Lemma keeps_ifte (b : St -> bool) (p q : stmt St) :
  keeps f p -> keeps f q -> keeps f (ifte b p q).
Proof. intros Hp Hq s. unfold ifte. destruct (b s); [apply Hp | apply Hq]. Qed.
Lemma keeps_switch (body : stmt St) : keeps f body -> keeps f (switch_ body).
Proof.
  intros Hb s. unfold switch_. specialize (Hb s).
  destruct (body s) as [c s'|s'|s']; assumption.
Qed.
Lemma keeps_do_while (fuel : nat) (body : stmt St) (cond : St -> bool) :
  keeps f body -> keeps f (do_while fuel body cond).
Proof. intros Hb s. apply do_while_preserves. exact Hb. Qed.
End ControlFacts.

(** Goals [steady p] and [keeps f p] over straight-line code. *)
Ltac steady_tac :=
  repeat match goal with
    | |- steady (then_ _ _) => apply steady_seq
    | |- steady (ifte _ _ _) => apply steady_ifte
    | |- steady (act _) => apply steady_act
    | |- steady skip => apply steady_skip
    | |- steady break_ => apply steady_break
    end.

(** ** C strings *)

Lemma cstr_nil : cstr [] = [].
Proof. reflexivity. Qed.

Lemma cstr_cons (x : Z) (s : list Z) :
  cstr (x :: s) = if x =? 0 then [] else x :: cstr s.
Proof. unfold cstr; simpl. destruct (x =? 0); reflexivity. Qed.

Lemma store_of_nat (n : nat) (v : Z) (a : list Z) :
  store (Z.of_nat n) v a = <[n := v]> a.
Proof.
  unfold store. destruct (Z.ltb_spec (Z.of_nat n) 0) as [Hlt|_]; [lia|].
  rewrite Nat2Z.id. reflexivity.
Qed.

Lemma length_store (i v : Z) (a : list Z) : length (store i v a) = length a.
Proof. unfold store. destruct (i <? 0); [reflexivity | apply length_insert]. Qed.

(** [strcmp] is zero exactly on equal strings. *)
Lemma strcmp_zero_iff (a b : list Z) : strcmp a b = 0 <-> cstr a = cstr b.
Proof.
  revert b. induction a as [|x a IH]; intros [|y b]; simpl.
  - tauto.
  - rewrite cstr_nil, cstr_cons. destruct (Z.eqb_spec y 0); split; intros; try lia; congruence.
  - rewrite cstr_nil, cstr_cons. destruct (Z.eqb_spec x 0); split; intros; try lia; congruence.
  - rewrite !cstr_cons.
    destruct (Z.eqb_spec x y) as [->|Hxy].
    + destruct (Z.eqb_spec y 0); [tauto|].
      rewrite IH. split; [congruence | intros H; injection H; auto].
    + destruct (Z.eqb_spec x 0), (Z.eqb_spec y 0); split; intros; try lia; congruence.
  Qed.

(** Writing a NUL where [strcspn] stops leaves the line up to its first
    CR or LF. *)
Lemma cstr_cut_at_strcspn (s : list Z) :
  cstr (store (Z.of_nat (strcspn s [13; 10; 0])) 0 s) = upto_crlf (cstr s).
Proof.
  rewrite store_of_nat.
  induction s as [|x s IH]; [reflexivity|].
  simpl strcspn. rewrite (cstr_cons x s).
  change (cstr [13; 10; 0]) with [13; 10]. simpl existsb. rewrite orb_false_r.
  destruct (Z.eqb_spec x 0) as [->|Hx]; [reflexivity|]. simpl orb.
  simpl upto_crlf. unfold is_crlf.
  destruct ((x =? 13) || (x =? 10)); [reflexivity|].
  simpl. rewrite cstr_cons. destruct (Z.eqb_spec x 0); [contradiction|].
  f_equal. exact IH.
Qed.

(** ** The authentication state machine *)

Lemma cliSetUartDirectionMode_cli (m : Z) (w : World) :
  cliInstance (cliSetUartDirectionMode m w) = cliInstance w.
Proof. unfold cliSetUartDirectionMode. repeat case_match; reflexivity. Qed.

Lemma cliSetUartDirectionMode_counts (m : Z) (w : World) :
  rxWaits (cliSetUartDirectionMode m w) = rxWaits w
  /\ txWaits (cliSetUartDirectionMode m w) = txWaits w
  /\ cliCalls (cliSetUartDirectionMode m w) = cliCalls w.
Proof. unfold cliSetUartDirectionMode. repeat case_match; auto. Qed.

Ltac keeps_tac :=
  repeat match goal with
    | |- keeps _ (then_ _ _) => apply keeps_seq
    | |- keeps _ (ifte _ _ _) => apply keeps_ifte
    | |- keeps _ (switch_ _) => apply keeps_switch
    | |- keeps _ skip => apply keeps_skip
    | |- keeps _ break_ => apply keeps_break
    | |- keeps _ (act _) =>
        apply keeps_act; intros;
        first [ reflexivity
              | apply cliSetUartDirectionMode_counts
              | apply cliSetUartDirectionMode_cli ]
    end.

Section AuthFacts.
Variable txQueueFeed : nat -> option Z.

(** Sending a message either completes or stays in its wait; it touches
    [txChar], the pins, the log and the wait count, nothing else. *)
Lemma cliSendMessage_outcome (message : list Z) (w : World) :
  exists w',
    (cliSendMessage txQueueFeed message w = Done Normal w'
     \/ cliSendMessage txQueueFeed message w = Blocked w')
    /\ rxBuffer (cliInstance w') = rxBuffer (cliInstance w)
    /\ rxIndex (cliInstance w') = rxIndex (cliInstance w)
    /\ authState (cliInstance w') = authState (cliInstance w).
Proof.
  unfold cliSendMessage, then_, act, xQueueReceive; simpl.
  destruct (txQueueFeed (txWaits w)); simpl; eexists; (split; [eauto|]);
    rewrite ?cliSetUartDirectionMode_cli; simpl;
    rewrite ?cliSetUartDirectionMode_cli; auto.
Qed.

Lemma cliSendMessage_steady (message : list Z) :
  steady (cliSendMessage txQueueFeed message).
Proof.
  unfold cliSendMessage. steady_tac.
  intros w. unfold xQueueReceive. destruct (txQueueFeed (txWaits w)); exact I.
Qed.

(** Sending a message leaves the receive count alone. *)
Lemma cliSendMessage_keeps_rxWaits (message : list Z) :
  keeps rxWaits (cliSendMessage txQueueFeed message).
Proof.
  unfold cliSendMessage. keeps_tac.
  intros w. unfold xQueueReceive. destruct (txQueueFeed (txWaits w)); reflexivity.
Qed.

(** The switch, as a choice among its five arms. *)
Lemma auth_arms (w : World) :
  let st := authState (cliInstance w) in
  authSwitch txQueueFeed w =
    switch_ (if st =? FSM_LOG_IN then auth_LOG_IN txQueueFeed
             else if st =? FSM_INPUT then auth_INPUT
             else if st =? FSM_PROCESS then auth_PROCESS txQueueFeed
             else if st =? FSM_ERR then auth_ERR txQueueFeed
             else auth_default) w.
Proof.
  unfold authSwitch, switch_; simpl.
  repeat (match goal with |- context [if ?b then _ else _] => destruct b end; try reflexivity).
Qed.

Lemma auth_arm_steady (st : Z) :
  steady (if st =? FSM_LOG_IN then auth_LOG_IN txQueueFeed
          else if st =? FSM_INPUT then auth_INPUT
          else if st =? FSM_PROCESS then auth_PROCESS txQueueFeed
          else if st =? FSM_ERR then auth_ERR txQueueFeed
          else auth_default).
Proof.
  repeat case_match;
    unfold auth_LOG_IN, auth_INPUT, auth_PROCESS, auth_ERR, auth_default;
    steady_tac; apply cliSendMessage_steady.
Qed.

Lemma auth_arm_keeps_rxWaits (st : Z) :
  keeps rxWaits (if st =? FSM_LOG_IN then auth_LOG_IN txQueueFeed
                 else if st =? FSM_INPUT then auth_INPUT
                 else if st =? FSM_PROCESS then auth_PROCESS txQueueFeed
                 else if st =? FSM_ERR then auth_ERR txQueueFeed
                 else auth_default).
Proof.
  repeat case_match;
    unfold auth_LOG_IN, auth_INPUT, auth_PROCESS, auth_ERR, auth_default;
    keeps_tac; apply cliSendMessage_keeps_rxWaits.
Qed.

(** A pass through the switch completes normally or stays in a wait: the
    [break] of every arm leaves the switch, not the loop around it. *)
Lemma authSwitch_outcome (w : World) :
  match authSwitch txQueueFeed w with
  | Done Normal _ | Blocked _ => True
  | _ => False
  end.
Proof. rewrite auth_arms. apply switch_steady, auth_arm_steady. Qed.

Lemma authSwitch_keeps_rxWaits : keeps rxWaits (authSwitch txQueueFeed).
Proof.
  intros w. rewrite auth_arms. apply keeps_switch, auth_arm_keeps_rxWaits.
Qed.

Lemma cliAuthenticate_not_completed (fuel : nat) (w : World) :
  completed (cliAuthenticate txQueueFeed fuel w) = false.
Proof. apply do_while_forever. apply authSwitch_outcome. Qed.

Lemma cliAuthenticate_keeps_rxWaits (fuel : nat) :
  keeps rxWaits (cliAuthenticate txQueueFeed fuel).
Proof. apply keeps_do_while, authSwitch_keeps_rxWaits. Qed.
(** The arm of an unlabelled state value. *)
Lemma authSwitch_default (w : World) :
  authState (cliInstance w) <> FSM_LOG_IN ->
  authState (cliInstance w) <> FSM_INPUT ->
  authState (cliInstance w) <> FSM_PROCESS ->
  authState (cliInstance w) <> FSM_ERR ->
  authSwitch txQueueFeed w = Done Normal (with_cli (set_authState FSM_ERR) w).
Proof.
  intros H0 H2 H3 H4. unfold authSwitch, switch_.
  apply Z.eqb_neq in H0, H2, H3, H4. rewrite H0, H2, H3, H4. reflexivity.
Qed.

(** The Collecting arm: the state moves on exactly when [strchr] finds
    a line feed. *)
Lemma authSwitch_INPUT (w : World) :
  authState (cliInstance w) = FSM_INPUT ->
  authSwitch txQueueFeed w =
    Done Normal (if bool_decide (is_Some (strchr (rxBuffer (cliInstance w)) 10))
                 then with_cli (set_authState FSM_PROCESS) w else w).
Proof.
  intros H. unfold authSwitch, switch_. rewrite H. simpl.
  unfold auth_INPUT, then_, ifte, act, skip, break_.
  destruct (bool_decide _); reflexivity.
Qed.

(** The Verifying arm, by the comparison it makes. *)
Lemma authSwitch_PROCESS (w : World) :
  authState (cliInstance w) = FSM_PROCESS ->
  let cut := with_cli (fun c =>
               set_rxBuffer (store (Z.of_nat (strcspn (rxBuffer c) [13; 10; 0])) 0
                                   (rxBuffer c)) c) w in
  authSwitch txQueueFeed w =
    if strcmp (rxBuffer (cliInstance cut)) PASSWORD =? 0
    then switch_ (cliSendMessage txQueueFeed AUTH_SUCCESS)
           (with_cli (set_authState FSM_LOG_OUT)
              (with_cli (set_rxBuffer (memset0 CLI_RX_BUFFER_SIZE)) cut))
    else Done Normal (with_cli (set_authState FSM_ERR) cut).
Proof.
  intros H cut. rewrite auth_arms. cbv zeta. rewrite H. simpl Z.eqb. cbv iota.
  unfold auth_PROCESS, switch_, then_ at 1, act at 1. fold cut.
  unfold then_ at 1, ifte. destruct (strcmp _ _ =? 0).
  - unfold then_, act.
    destruct (cliSendMessage_outcome AUTH_SUCCESS
                (with_cli (set_authState FSM_LOG_OUT)
                   (with_cli (set_rxBuffer (memset0 CLI_RX_BUFFER_SIZE)) cut)))
      as (w' & [-> | ->] & _); reflexivity.
  - reflexivity.
Qed.
Lemma authSwitch_PROCESS_accept (w : World) :
  authState (cliInstance w) = FSM_PROCESS ->
  upto_crlf (cstr (rxBuffer (cliInstance w))) = chars "1234" ->
  exists w',
    (authSwitch txQueueFeed w = Done Normal w' \/ authSwitch txQueueFeed w = Blocked w')
    /\ authState (cliInstance w') = FSM_LOG_OUT
    /\ rxBuffer (cliInstance w') = memset0 CLI_RX_BUFFER_SIZE.
Proof.
  intros H Hline. rewrite (authSwitch_PROCESS w H). cbv zeta.
  destruct (Z.eqb_spec (strcmp (rxBuffer (cliInstance (with_cli (fun c =>
              set_rxBuffer (store (Z.of_nat (strcspn (rxBuffer c) [13; 10; 0])) 0
                                  (rxBuffer c)) c) w))) PASSWORD) 0) as [_|Hne].
  - match goal with |- context [switch_ _ ?w2] =>
      destruct (cliSendMessage_outcome AUTH_SUCCESS w2) as (w' & Hrun & Hbuf & _ & Hst)
    end.
    exists w'. unfold switch_.
    split; [destruct Hrun as [-> | ->]; auto|].
    rewrite Hst, Hbuf. split; reflexivity.
  - exfalso. apply Hne. apply strcmp_zero_iff. simpl rxBuffer.
    rewrite cstr_cut_at_strcspn, Hline. reflexivity.
Qed.

Lemma authSwitch_PROCESS_reject (w : World) :
  authState (cliInstance w) = FSM_PROCESS ->
  upto_crlf (cstr (rxBuffer (cliInstance w))) <> chars "1234" ->
  exists w',
    authSwitch txQueueFeed w = Done Normal w'
    /\ authState (cliInstance w') = FSM_ERR.
Proof.
  intros H Hline. rewrite (authSwitch_PROCESS w H). cbv zeta.
  destruct (Z.eqb_spec (strcmp (rxBuffer (cliInstance (with_cli (fun c =>
              set_rxBuffer (store (Z.of_nat (strcspn (rxBuffer c) [13; 10; 0])) 0
                                  (rxBuffer c)) c) w))) PASSWORD) 0) as [He|_].
  - exfalso. apply Hline. apply strcmp_zero_iff in He. simpl rxBuffer in He.
    rewrite cstr_cut_at_strcspn in He. exact He.
  - eexists. split; reflexivity.
Qed.

(** From Collecting, with a line feed after the secret in the buffer,
    two passes of the loop reach the Authenticated state. *)
Lemma cliAuthenticate_two_steps (w : World) :
  authState (cliInstance w) = FSM_INPUT ->
  is_Some (strchr (rxBuffer (cliInstance w)) 10) ->
  upto_crlf (cstr (rxBuffer (cliInstance w))) = chars "1234" ->
  authState (cliInstance (state_of (cliAuthenticate txQueueFeed 2 w))) = FSM_LOG_OUT.
Proof.
  intros H Hlf Hline. unfold cliAuthenticate. simpl do_while.
  rewrite (authSwitch_INPUT w H), bool_decide_eq_true_2 by exact Hlf.
  destruct (authSwitch_PROCESS_accept (with_cli (set_authState FSM_PROCESS) w))
    as (w' & [-> | ->] & Hst & _); auto.
Qed.
End AuthFacts.

(** ** The dispatch loop *)

Section DispatchFacts.
Variable FreeRTOS_CLIProcessCommand : nat -> list Z -> Z * list Z.
Variable txQueueFeed : nat -> option Z.

(** One round: the world it leaves, and whether it breaks out. *)
Lemma dispatchRound_eq (w : World) :
  dispatchRound FreeRTOS_CLIProcessCommand txQueueFeed w =
    Done (if stops_after FreeRTOS_CLIProcessCommand txQueueFeed w 0 then Break else Normal)
         (round_world FreeRTOS_CLIProcessCommand w).
Proof.
  unfold dispatchRound, stops_after, round_world, round_stops.
  rewrite !Nat.add_0_r.
  destruct (FreeRTOS_CLIProcessCommand (cliCalls w) (cstr (rxBuffer (cliInstance w))))
    as [returnStatus tx].
  unfold then_, act, xQueueReceive; simpl.
  destruct (txQueueFeed (txWaits w)) as [c|]; simpl.
  - replace (bool_decide (Some c = Some CLI_MSG_ERR)) with (c =? 2).
    + destruct ((returnStatus =? pdFALSE) || (c =? 2)); reflexivity.
    + destruct (Z.eqb_spec c 2) as [->|Hc]; symmetry.
      * apply bool_decide_eq_true. reflexivity.
      * apply bool_decide_eq_false. unfold CLI_MSG_ERR. congruence.
  - rewrite orb_false_r. destruct (returnStatus =? pdFALSE); reflexivity.
Qed.

Lemma round_world_fields (w : World) :
  let w' := round_world FreeRTOS_CLIProcessCommand w in
  rxBuffer (cliInstance w') = rxBuffer (cliInstance w)
  /\ rxIndex (cliInstance w') = rxIndex (cliInstance w)
  /\ authState (cliInstance w') = authState (cliInstance w)
  /\ cliCalls w' = S (cliCalls w)
  /\ txWaits w' = S (txWaits w)
  /\ rxWaits w' = rxWaits w
  /\ trace w' = trace w ++ round_events FreeRTOS_CLIProcessCommand
                             (cstr (rxBuffer (cliInstance w))) (cliCalls w).
Proof.
  unfold round_world, round_events; simpl.
  repeat split; try reflexivity.
  rewrite <- !app_assoc. reflexivity.
Qed.

Lemma stops_after_round (w : World) (j : nat) :
  stops_after FreeRTOS_CLIProcessCommand txQueueFeed
              (round_world FreeRTOS_CLIProcessCommand w) j
  = stops_after FreeRTOS_CLIProcessCommand txQueueFeed w (S j).
Proof.
  unfold stops_after.
  destruct (round_world_fields w) as (-> & _ & _ & -> & -> & _).
  rewrite !Nat.add_succ_r. reflexivity.
Qed.

Lemma rounds_fields (n : nat) (w : World) :
  rxBuffer (cliInstance (rounds FreeRTOS_CLIProcessCommand n w)) = rxBuffer (cliInstance w)
  /\ rxIndex (cliInstance (rounds FreeRTOS_CLIProcessCommand n w)) = rxIndex (cliInstance w)
  /\ authState (cliInstance (rounds FreeRTOS_CLIProcessCommand n w)) = authState (cliInstance w)
  /\ cliCalls (rounds FreeRTOS_CLIProcessCommand n w) = (cliCalls w + n)%nat
  /\ txWaits (rounds FreeRTOS_CLIProcessCommand n w) = (txWaits w + n)%nat
  /\ rxWaits (rounds FreeRTOS_CLIProcessCommand n w) = rxWaits w
  /\ trace (rounds FreeRTOS_CLIProcessCommand n w) =
       trace w ++ concat (map (round_events FreeRTOS_CLIProcessCommand
                                 (cstr (rxBuffer (cliInstance w))))
                              (List.seq (cliCalls w) n)).
Proof.
  revert w. induction n as [|n IH]; intros w; simpl.
  - rewrite !Nat.add_0_r, app_nil_r. tauto.
  - destruct (IH (round_world FreeRTOS_CLIProcessCommand w))
      as (-> & -> & -> & -> & -> & -> & ->).
    destruct (round_world_fields w) as (-> & -> & -> & -> & -> & -> & ->).
    rewrite <- app_assoc, !Nat.add_succ_r. tauto.
Qed.

(** The loop ends with the first round that stops it ... *)
Lemma dispatchLoop_stops (k : nat) : forall (fuel : nat) (w : World),
  (forall j, (j < k)%nat -> stops_after FreeRTOS_CLIProcessCommand txQueueFeed w j = false) ->
  stops_after FreeRTOS_CLIProcessCommand txQueueFeed w k = true ->
  (k < fuel)%nat ->
  dispatchLoop FreeRTOS_CLIProcessCommand txQueueFeed fuel w =
    Done Normal (rounds FreeRTOS_CLIProcessCommand (S k) w).
Proof.
  induction k as [|k IH]; intros fuel w Hgo Hstop Hfuel;
    (destruct fuel as [|fuel]; [lia|]);
    unfold dispatchLoop; simpl do_while; rewrite dispatchRound_eq.
  - rewrite Hstop. reflexivity.
  - rewrite (Hgo 0%nat) by lia.
    apply IH; [| rewrite stops_after_round; assumption | lia].
    intros j Hj. rewrite stops_after_round. apply Hgo. lia.
Qed.

(** ... and goes on for as long as no round does. *)
Lemma dispatchLoop_runs : forall (fuel : nat) (w : World),
  (forall j, (j < fuel)%nat -> stops_after FreeRTOS_CLIProcessCommand txQueueFeed w j = false) ->
  dispatchLoop FreeRTOS_CLIProcessCommand txQueueFeed fuel w =
    Running (rounds FreeRTOS_CLIProcessCommand fuel w).
Proof.
  induction fuel as [|fuel IH]; intros w Hgo; [reflexivity|].
  unfold dispatchLoop; simpl do_while. rewrite dispatchRound_eq.
  rewrite (Hgo 0%nat) by lia.
  apply IH. intros j Hj. rewrite stops_after_round. apply Hgo. lia.
Qed.

Lemma dispatchRound_keeps {A : Type} (f : Cli_s -> A) :
  (forall tx c, f (set_txBuffer tx c) = f c) ->
  keeps (fun w => f (cliInstance w)) (dispatchRound FreeRTOS_CLIProcessCommand txQueueFeed).
Proof.
  intros Hf w. rewrite dispatchRound_eq. simpl. apply Hf.
Qed.

Lemma dispatchLoop_keeps {A : Type} (f : Cli_s -> A) (fuel : nat) :
  (forall tx c, f (set_txBuffer tx c) = f c) ->
  keeps (fun w => f (cliInstance w)) (dispatchLoop FreeRTOS_CLIProcessCommand txQueueFeed fuel).
Proof. intros Hf. apply keeps_do_while, dispatchRound_keeps, Hf. Qed.
End DispatchFacts.

(** ** The line assembler *)

Lemma removelast_take {A : Type} (l : list A) : removelast l = take (length l - 1) l.
Proof. rewrite removelast_firstn_len. f_equal. lia. Qed.

Lemma holds_nil (w : World) :
  rxIndex (cliInstance w) = 0 ->
  length (rxBuffer (cliInstance w)) = Z.to_nat CLI_RX_BUFFER_SIZE ->
  holds w [].
Proof. intros Hi Hl. unfold holds. simpl. repeat split; auto. unfold CLI_RX_BUFFER_SIZE. lia. Qed.

Section AssemblerFacts.
Variable FreeRTOS_CLIProcessCommand : nat -> list Z -> Z * list Z.
Variable txQueueFeed : nat -> option Z.

(** A byte other than the carriage return: the assembler takes one step,
    and nothing but the buffer, the cursor and [rxChar] changes. *)
Lemma deliver_holds (fuel : nat) (c : Z) (w : World) (acc : list Z) :
  holds w acc ->
  c <> CLI_END_CHAR ->
  exists w',
    deliver FreeRTOS_CLIProcessCommand txQueueFeed fuel c w = Done Normal w'
    /\ holds w' (assemble_step acc c)
    /\ authState (cliInstance w') = authState (cliInstance w)
    /\ trace w' = trace w.
Proof.
  intros (Hidx & Htake & Hlen & Hacc) Hc.
  unfold CLI_RX_BUFFER_SIZE in *.
  unfold deliver, then_ at 1, act at 1, rxSwitch, switch_. simpl.
  apply Z.eqb_neq in Hc. rewrite Hc.
  unfold assemble_step, holds, CLI_RX_BUFFER_SIZE.
  destruct (Z.eqb_spec c CLI_BS_CHAR) as [Hbs|Hbs].
  - unfold case_BS_CHAR, then_, ifte, act, skip, break_. simpl. rewrite Hidx.
    destruct (Z.ltb_spec 0 (Z.of_nat (length acc))) as [Hpos|Hzero].
    + eexists; split; [reflexivity|]. simpl.
      assert (Hu : u16 (Z.of_nat (length acc) - 1) = Z.of_nat (length acc - 1)).
      { unfold u16. rewrite Z.mod_small; lia. }
      rewrite ?Hidx, Hu, store_of_nat, removelast_take, length_insert.
      rewrite (length_take_le acc) by lia.
      repeat split; try lia.
      rewrite take_insert_ge by lia.
      replace (take (length acc - 1) acc)
        with (take (length acc - 1) (take (length acc) (rxBuffer (cliInstance w))))
        by (rewrite Htake; reflexivity).
      rewrite take_take. f_equal. lia.
    + eexists; split; [reflexivity|]. simpl.
      assert (acc = []) as -> by (destruct acc; [reflexivity | simpl in Hzero; lia]).
      simpl. repeat split; auto.
  - unfold case_default, then_, ifte, act, skip, break_, CLI_RX_BUFFER_SIZE. simpl.
    rewrite Hidx.
    destruct (Z.ltb_spec (Z.of_nat (length acc)) (256 - 1)) as [Hroom|Hfull].
    + eexists; split; [reflexivity|]. simpl.
      assert (Hu : u16 (Z.of_nat (length acc) + 1) = Z.of_nat (length (acc ++ [c]))).
      { unfold u16. rewrite length_app. simpl. rewrite Z.mod_small; lia. }
      rewrite ?Hidx, Hu, store_of_nat, length_insert, length_app. simpl.
      repeat split; try lia.
      replace (length acc + 1)%nat with (S (length acc)) by lia.
      rewrite (take_S_r _ _ c).
      * rewrite take_insert_ge by lia. rewrite Htake. reflexivity.
      * apply list_lookup_insert_eq. lia.
    + eexists; split; [reflexivity|]. simpl. repeat split; auto.
Qed.

Lemma deliverAll_holds (fuel : nat) (bytes : list Z) : forall (w : World) (acc : list Z),
  holds w acc ->
  Forall (fun c => c <> CLI_END_CHAR) bytes ->
  exists w',
    deliverAll FreeRTOS_CLIProcessCommand txQueueFeed fuel bytes w = Done Normal w'
    /\ holds w' (fold_left assemble_step bytes acc)
    /\ authState (cliInstance w') = authState (cliInstance w)
    /\ trace w' = trace w.
Proof.
  induction bytes as [|c bytes IH]; intros w acc Hw Hall.
  - exists w. simpl. auto.
  - apply Forall_cons in Hall as [Hc Hall].
    destruct (deliver_holds fuel c w acc Hw Hc) as (w1 & Hrun & Hw1 & Hst & Htr).
    destruct (IH w1 (assemble_step acc c) Hw1 Hall) as (w2 & Hrun2 & Hw2 & Hst2 & Htr2).
    exists w2. simpl. unfold then_ at 1. rewrite Hrun.
    repeat split; [assumption | apply Hw2 .. | congruence | congruence].
Qed.

Lemma deliverAll_app (fuel : nat) (a b : list Z) (w : World) :
  deliverAll FreeRTOS_CLIProcessCommand txQueueFeed fuel (a ++ b) w =
    (deliverAll FreeRTOS_CLIProcessCommand txQueueFeed fuel a ;;;
     deliverAll FreeRTOS_CLIProcessCommand txQueueFeed fuel b) w.
Proof.
  revert w. induction a as [|c a IH]; intros w; simpl; [reflexivity|].
  unfold then_ in *.
  destruct (deliver _ _ fuel c w) as [[|] w'|w'|w']; try reflexivity.
  apply IH.
Qed.

(** The carriage return: whatever the dispatch loop does afterwards, the
    buffer stays as [terminate_line] left it. *)
Lemma deliver_END_CHAR_buffer (fuel : nat) (w : World) :
  rxBuffer (cliInstance
    (state_of (deliver FreeRTOS_CLIProcessCommand txQueueFeed fuel CLI_END_CHAR w)))
  = store (rxIndex (cliInstance w)) CLI_NULL_CHAR (rxBuffer (cliInstance w)).
Proof.
  assert (Hk : keeps (fun w => rxBuffer (cliInstance w))
            (dispatchLoop FreeRTOS_CLIProcessCommand txQueueFeed fuel ;;;
             act (cliSetUartDirectionMode UART_RX_MODE) ;;;
             act (with_cli (set_rxIndex 0)) ;;; break_)).
  { apply keeps_seq; [apply (dispatchLoop_keeps _ _ rxBuffer); reflexivity|].
    keeps_tac. }
  pose proof (keeps_switch _ _ Hk (terminate_line (with_cli (set_rxChar CLI_END_CHAR) w)))
    as Hsw.
  simpl in Hsw. rewrite <- Hsw. reflexivity.
Qed.
(** The carriage return, by what the dispatch loop comes to. *)
Lemma deliver_END_CHAR_eq (fuel : nat) (w : World) :
  deliver FreeRTOS_CLIProcessCommand txQueueFeed fuel CLI_END_CHAR w =
    match dispatchLoop FreeRTOS_CLIProcessCommand txQueueFeed fuel
            (terminate_line (with_cli (set_rxChar CLI_END_CHAR) w)) with
    | Done Normal x =>
        Done Normal (with_cli (set_rxIndex 0) (cliSetUartDirectionMode UART_RX_MODE x))
    | Done Break x => Done Normal x
    | o => o
    end.
Proof.
  unfold deliver, rxSwitch, case_END_CHAR, switch_, then_, act, break_. simpl.
  destruct (dispatchLoop _ _ fuel _) as [[|] x|x|x]; reflexivity.
Qed.

(** However the dispatch loop ends or goes on, it has made whole rounds. *)
Lemma dispatchLoop_shape (fuel : nat) : forall (w : World),
  exists n,
    dispatchLoop FreeRTOS_CLIProcessCommand txQueueFeed fuel w
      = Done Normal (rounds FreeRTOS_CLIProcessCommand n w)
    \/ dispatchLoop FreeRTOS_CLIProcessCommand txQueueFeed fuel w
      = Running (rounds FreeRTOS_CLIProcessCommand n w).
Proof.
  induction fuel as [|fuel IH]; intros w.
  - exists 0%nat. right. reflexivity.
  - unfold dispatchLoop. cbn [do_while]. rewrite dispatchRound_eq.
    destruct (stops_after _ _ w 0).
    + exists 1%nat. left. reflexivity.
    + destruct (IH (round_world FreeRTOS_CLIProcessCommand w)) as (n & Hn).
      exists (S n). exact Hn.
Qed.
End AssemblerFacts.

(** * The claims *)

(** ** Authentication *)

(** C1: whatever state the authentication machine starts in, the loop of
    [cliAuthenticate] never exits: however many iterations are looked at,
    the call has not returned (it is still iterating, or suspended in a
    wait inside [cliSendMessage]). So the task that calls it never gets
    back to its blocking receive on the byte queue: it does not return
    either, and it has performed no receive on [rxQueue]. *)
Theorem cliAuthenticate_never_returns
    (interp : nat -> list Z -> Z * list Z) (txFeed rxFeed : nat -> option Z)
    (fuel : nat) (w : World) :
  completed (cliAuthenticate txFeed fuel w) = false
  /\ completed (cliTask interp txFeed rxFeed fuel w) = false
  /\ rxWaits (state_of (cliTask interp txFeed rxFeed fuel w)) = rxWaits w.
Proof.
  split; [apply cliAuthenticate_not_completed|].
  destruct fuel as [|n]; [split; reflexivity|].
  set (w1 := with_cli (set_authState FSM_LOG_IN) w).
  pose proof (cliAuthenticate_not_completed txFeed (S n) w1) as Hnot.
  assert (Heq : cliTask interp txFeed rxFeed (S n) w = cliAuthenticate txFeed (S n) w1).
  { unfold cliTask, then_ at 1, act at 1. fold w1.
    rewrite while_stuck; rewrite then_stuck by exact Hnot; [reflexivity | exact Hnot]. }
  rewrite Heq. split; [exact Hnot|].
  apply (cliAuthenticate_keeps_rxWaits txFeed (S n) w1).
Qed.

(** C9: for every state value that has no arm in the transition switch
    (any value other than FSM_LOG_IN, FSM_INPUT, FSM_PROCESS and FSM_ERR),
    one step of the machine sets the state to FSM_ERR (Rejected) and
    changes nothing else. *)
Theorem auth_unhandled_state_is_rejected (txFeed : nat -> option Z) (w : World) :
  authState (cliInstance w) <> FSM_LOG_IN ->
  authState (cliInstance w) <> FSM_INPUT ->
  authState (cliInstance w) <> FSM_PROCESS ->
  authState (cliInstance w) <> FSM_ERR ->
  authSwitch txFeed w = Done Normal (with_cli (set_authState FSM_ERR) w)
  /\ authState (cliInstance (state_of (authSwitch txFeed w))) = FSM_ERR.
Proof.
  intros H0 H2 H3 H4.
  rewrite (authSwitch_default txFeed w H0 H2 H3 H4). split; reflexivity.
Qed.

Lemma auth_unhandled_state_is_rejected_witness :
  authSwitch tx_all_complete (world_in 7) =
    Done Normal (with_cli (set_authState FSM_ERR) (world_in 7))
  /\ authState (cliInstance (state_of (authSwitch tx_all_complete (world_in 7)))) = FSM_ERR.
Proof.
  apply (auth_unhandled_state_is_rejected tx_all_complete (world_in 7));
    vm_compute; discriminate.
Defined.

(** C6 (the code departs from it): from the Authenticated state
    (FSM_LOG_OUT) one step of the machine moves to FSM_ERR, because the
    switch has no arm for FSM_LOG_OUT and its default arm takes it. With
    a transport that completes every transmission, three steps from
    Authenticated send the failure message and the prompt again and end in
    Collecting (FSM_INPUT). *)
Theorem authenticated_state_is_left :
  (forall (txFeed : nat -> option Z) (w : World),
     authState (cliInstance (state_of
       (cliAuthenticate txFeed 1 (with_cli (set_authState FSM_LOG_OUT) w)))) = FSM_ERR)
  /\ authState (cliInstance (state_of
       (cliAuthenticate tx_all_complete 3 (world_in FSM_LOG_OUT)))) = FSM_INPUT
  /\ trace (state_of (cliAuthenticate tx_all_complete 3 (world_in FSM_LOG_OUT))) =
       [EvMode UART_TX_MODE; EvWrite (cstr AUTH_FAIL); EvTxWait None; EvMode UART_RX_MODE;
        EvMode UART_TX_MODE; EvWrite (cstr PROMPT_PASSWORD); EvTxWait None;
        EvMode UART_RX_MODE].
Proof.
  split; [|split; vm_compute; reflexivity].
  intros txFeed w. unfold cliAuthenticate. cbn [do_while].
  rewrite authSwitch_default by (simpl; discriminate). reflexivity.
Qed.

(** C5, as amended: in the Verifying step the machine cuts the collected
    line at its first CR or LF and compares what stands before it with the
    secret "1234". For every line whose part before the first CR or LF is
    the secret, the state becomes Authenticated and the line buffer is
    cleared; for every other line the state becomes Rejected. *)
Theorem verifying_compares_up_to_first_crlf (txFeed : nat -> option Z) (w : World) :
  authState (cliInstance w) = FSM_PROCESS ->
  let line := upto_crlf (cstr (rxBuffer (cliInstance w))) in
  let w' := state_of (authSwitch txFeed w) in
  (line = chars "1234" ->
     authState (cliInstance w') = FSM_LOG_OUT
     /\ rxBuffer (cliInstance w') = memset0 CLI_RX_BUFFER_SIZE)
  /\ (line <> chars "1234" -> authState (cliInstance w') = FSM_ERR).
Proof.
  intros H line w'. subst line w'. split; intros Hline.
  - destruct (authSwitch_PROCESS_accept txFeed w H Hline) as (w' & [-> | ->] & Hst & Hbuf);
      auto.
  - destruct (authSwitch_PROCESS_reject txFeed w H Hline) as (w' & -> & Hst). exact Hst.
Qed.

Lemma verifying_compares_up_to_first_crlf_witness :
  authState (cliInstance (state_of
    (authSwitch tx_all_complete (world_verifying (chars "1234" ++ [13; 10; 0]))))) = FSM_LOG_OUT
  /\ authState (cliInstance (state_of
    (authSwitch tx_all_complete (world_verifying (chars "9999" ++ [0]))))) = FSM_ERR.
Proof.
  split.
  - apply (verifying_compares_up_to_first_crlf tx_all_complete
             (world_verifying (chars "1234" ++ [13; 10; 0])) eq_refl).
    vm_compute. reflexivity.
  - apply (verifying_compares_up_to_first_crlf tx_all_complete
             (world_verifying (chars "9999" ++ [0])) eq_refl).
    vm_compute. discriminate.
Defined.

(** C5, as stated, fails: the buffer "1234", LF, "A" is not the secret
    once its trailing CR and LF characters are stripped (it has none), yet
    the Verifying step authenticates it. *)
Lemma verifying_trailing_strip_counterexample :
  strip_trailing_crlf (cstr (rxBuffer (cliInstance
      (world_verifying (chars "1234" ++ [10; 65; 0])))))
    = chars "1234" ++ [10; 65]
  /\ authState (cliInstance (state_of
       (authSwitch tx_all_complete (world_verifying (chars "1234" ++ [10; 65; 0])))))
     = FSM_LOG_OUT.
Proof. split; vm_compute; reflexivity. Qed.

(** C4, as amended: in the Collecting state one step of the machine moves
    to Verifying exactly when the string in the line buffer holds a line
    feed (0x0A), and otherwise changes nothing. In particular, delivering
    '1','2','3','4' and a line feed (which the assembler stores like any
    other byte) while in Collecting with an empty line leads the machine,
    in two steps, to the Authenticated state. *)
Theorem collecting_advances_on_line_feed
    (interp : nat -> list Z -> Z * list Z) (txFeed : nat -> option Z)
    (fuel : nat) (w : World) :
  authState (cliInstance w) = FSM_INPUT ->
  authSwitch txFeed w =
    Done Normal (if bool_decide (is_Some (strchr (rxBuffer (cliInstance w)) 10))
                 then with_cli (set_authState FSM_PROCESS) w else w)
  /\ (rxIndex (cliInstance w) = 0 ->
      length (rxBuffer (cliInstance w)) = Z.to_nat CLI_RX_BUFFER_SIZE ->
      authState (cliInstance (state_of
        (cliAuthenticate txFeed 2
           (state_of (deliverAll interp txFeed fuel (chars "1234" ++ [10]) w)))))
      = FSM_LOG_OUT).
Proof.
  intros H. split; [apply authSwitch_INPUT, H|]. intros Hidx Hlen.
  change (chars "1234" ++ [10]) with [49; 50; 51; 52; 10].
  destruct (deliverAll_holds interp txFeed fuel [49; 50; 51; 52; 10] w []
              (holds_nil w Hidx Hlen))
    as (w1 & -> & (_ & Htake & _) & Hst & _).
  { repeat constructor; discriminate. }
  change (fold_left assemble_step [49; 50; 51; 52; 10] []) with [49; 50; 51; 52; 10] in Htake.
  simpl length in Htake. simpl state_of.
  assert (Hbuf : rxBuffer (cliInstance w1)
                 = [49; 50; 51; 52; 10] ++ drop 5 (rxBuffer (cliInstance w1))).
  { rewrite <- Htake at 1. symmetry. apply take_drop. }
  apply cliAuthenticate_two_steps; [congruence | |]; rewrite Hbuf.
  - simpl. eauto.
  - simpl app. rewrite !cstr_cons. reflexivity.
Qed.

Lemma collecting_advances_on_line_feed_witness :
  authSwitch tx_all_complete (world_in FSM_INPUT) = Done Normal (world_in FSM_INPUT)
  /\ authState (cliInstance (state_of
       (cliAuthenticate tx_all_complete 2
          (state_of (deliverAll interp_once tx_all_complete 1 (chars "1234" ++ [10])
                       (world_in FSM_INPUT)))))) = FSM_LOG_OUT.
Proof.
  destruct (collecting_advances_on_line_feed interp_once tx_all_complete 1
              (world_in FSM_INPUT) eq_refl) as [Hstep Hrun].
  split; [exact Hstep | apply Hrun; reflexivity].
Defined.

(** C4, as stated, fails: after '1','2','3','4' and a carriage return in
    the Collecting state the completed line "1234" is in the buffer, yet a
    step of the machine stays in Collecting, and so does every further
    step: the Authenticated state is not reached. *)
Lemma collecting_ignores_carriage_return :
  cstr (rxBuffer (cliInstance world_1234_cr)) = chars "1234"
  /\ authState (cliInstance world_1234_cr) = FSM_INPUT
  /\ authState (cliInstance (state_of (authSwitch tx_all_complete world_1234_cr)))
     = FSM_INPUT
  /\ (forall n,
        authState (cliInstance (state_of (cliAuthenticate tx_all_complete n world_1234_cr)))
        = FSM_INPUT).
Proof.
  assert (Hst : authState (cliInstance world_1234_cr) = FSM_INPUT)
    by (vm_compute; reflexivity).
  assert (Hfix : authSwitch tx_all_complete world_1234_cr = Done Normal world_1234_cr)
    by (vm_compute; reflexivity).
  split; [vm_compute; reflexivity|].
  split; [exact Hst|].
  split; [rewrite Hfix; exact Hst|].
  intros n. induction n as [|n IH]; [exact Hst|].
  unfold cliAuthenticate in *. cbn [do_while]. rewrite Hfix. exact IH.
Qed.

(** ** The line assembler *)

Lemma assemble_step_length (acc : list Z) (c : Z) :
  (length (backspace_step acc c) <= S (length acc))%nat.
Proof.
  unfold backspace_step. destruct (c =? CLI_BS_CHAR).
  - rewrite removelast_take, length_take. lia.
  - rewrite length_app. simpl. lia.
Qed.

(** While no character is dropped for want of room, the assembler applies
    the backspaces and nothing else. *)
Lemma assemble_no_overflow (bytes : list Z) : forall acc : list Z,
  (length acc + length bytes <= 255)%nat ->
  fold_left assemble_step bytes acc = fold_left backspace_step bytes acc
  /\ (length (fold_left backspace_step bytes acc) <= length acc + length bytes)%nat.
Proof.
  induction bytes as [|c bytes IH]; intros acc Hlen; simpl in *; [split; [reflexivity | lia]|].
  assert (Hstep : assemble_step acc c = backspace_step acc c).
  { unfold assemble_step, backspace_step, CLI_RX_BUFFER_SIZE.
    destruct (c =? CLI_BS_CHAR); [reflexivity|].
    destruct (Z.ltb_spec (Z.of_nat (length acc)) (256 - 1)); [reflexivity | lia]. }
  pose proof (assemble_step_length acc c) as Hl.
  rewrite Hstep. destruct (IH (backspace_step acc c)) as [-> Hl2]; [lia|].
  split; [reflexivity | lia].
Qed.

(** C2, as amended: for every finite sequence of bytes without a carriage
    return, delivered one at a time to the per-byte processing of the task
    from an empty line and followed by a carriage return, the line buffer
    then holds, NUL-terminated, the line the assembler built: each
    backspace (0x7F) removed the last character held (nothing on an empty
    line), and a character that arrived while 255 were held was dropped.
    The line never exceeds 255 characters, and whenever the sequence has at
    most 255 bytes it is the sequence with the backspaces applied, cut to
    255 characters. *)
Theorem line_assembler_builds_held_line
    (interp : nat -> list Z -> Z * list Z) (txFeed : nat -> option Z)
    (fuel : nat) (bytes : list Z) (w : World) :
  rxIndex (cliInstance w) = 0 ->
  length (rxBuffer (cliInstance w)) = Z.to_nat CLI_RX_BUFFER_SIZE ->
  Forall (fun c => c <> CLI_END_CHAR) bytes ->
  let w' := state_of (deliverAll interp txFeed fuel (bytes ++ [CLI_END_CHAR]) w) in
  take (S (length (assemble bytes))) (rxBuffer (cliInstance w'))
    = assemble bytes ++ [CLI_NULL_CHAR]
  /\ (length (assemble bytes) <= 255)%nat
  /\ ((length bytes <= 255)%nat -> assemble bytes = spec_line bytes).
Proof.
  intros Hidx Hlen Hall w'. subst w'. unfold assemble.
  destruct (deliverAll_holds interp txFeed fuel bytes w [] (holds_nil w Hidx Hlen) Hall)
    as (w1 & Hrun & (Hidx1 & Htake1 & Hlen1 & Hacc1) & _).
  unfold CLI_RX_BUFFER_SIZE in *.
  split; [|split; [lia|]].
  - rewrite deliverAll_app. unfold then_ at 1. rewrite Hrun.
    cbn [deliverAll]. rewrite then_stuck_or_skip.
    rewrite deliver_END_CHAR_buffer, Hidx1, store_of_nat.
    rewrite (take_S_r _ _ CLI_NULL_CHAR).
    + rewrite take_insert_ge by lia. rewrite Htake1. reflexivity.
    + apply list_lookup_insert_eq. lia.
  - intros Hshort. unfold spec_line, apply_backspaces, CLI_RX_BUFFER_SIZE.
    destruct (assemble_no_overflow bytes []) as [-> Hl]; [simpl; lia|].
    rewrite take_ge; [reflexivity | simpl in Hl; lia].
Qed.

Lemma line_assembler_builds_held_line_witness :
  take 3 (rxBuffer (cliInstance (state_of
    (deliverAll interp_once tx_all_complete 1
       ([104; 105; CLI_BS_CHAR; 111] ++ [CLI_END_CHAR]) world_zero))))
  = [104; 111; CLI_NULL_CHAR].
Proof.
  apply (line_assembler_builds_held_line interp_once tx_all_complete 1
           [104; 105; CLI_BS_CHAR; 111] world_zero eq_refl eq_refl).
  repeat constructor; vm_compute; discriminate.
Defined.

(** C2, as stated, fails: after 256 characters and a backspace the
    sequence with the backspace applied and cut to 255 characters has 255
    characters, while the line in the buffer at the carriage return has
    254: the 256th character was dropped on arrival, and the backspace took
    the 255th. *)
Lemma line_assembler_overflow_backspace :
  cstr (rxBuffer (cliInstance (state_of
    (deliverAll interp_once tx_all_complete 1
       (overflow_bytes ++ [CLI_END_CHAR]) world_zero)))) = replicate 254 97
  /\ spec_line overflow_bytes = replicate 255 97.
Proof. split; vm_compute; reflexivity. Qed.

(** ** The command dispatch loop *)

(** C7: the dispatch loop entered on a completed line ends exactly with
    the first round in which the interpreter returned pdFALSE or the status
    event consumed was Failed. If that is round [k] (counting from 0), the
    processing of the carriage return completes after exactly [k + 1]
    interpreter calls and writes, then switches the UART back to Receive
    mode and resets the cursor to 0; so nothing is written after a Failed
    status. If no round up to the fuel stops the loop, it is still running
    after that many rounds. *)
Theorem dispatch_loop_ends_at_first_stop
    (interp : nat -> list Z -> Z * list Z) (txFeed : nat -> option Z)
    (fuel : nat) (w : World) :
  let line := cstr (rxBuffer (cliInstance (terminate_line w))) in
  (forall k : nat,
     (forall j, (j < k)%nat -> stops_after interp txFeed (terminate_line w) j = false) ->
     stops_after interp txFeed (terminate_line w) k = true ->
     (k < fuel)%nat ->
     exists w',
       deliver interp txFeed fuel CLI_END_CHAR w = Done Normal w'
       /\ trace w' = trace w
                     ++ concat (map (round_events interp line) (List.seq (cliCalls w) (S k)))
                     ++ [EvMode UART_RX_MODE]
       /\ cliCalls w' = (cliCalls w + S k)%nat
       /\ in_rx_mode w' = true
       /\ rxIndex (cliInstance w') = 0)
  /\ ((forall j, (j < fuel)%nat -> stops_after interp txFeed (terminate_line w) j = false) ->
      completed (deliver interp txFeed fuel CLI_END_CHAR w) = false
      /\ cliCalls (state_of (deliver interp txFeed fuel CLI_END_CHAR w))
         = (cliCalls w + fuel)%nat).
Proof.
  intros line. subst line.
  set (w1 := terminate_line (with_cli (set_rxChar CLI_END_CHAR) w)).
  split.
  - intros k Hgo Hstop Hfuel.
    rewrite deliver_END_CHAR_eq. fold w1.
    rewrite (dispatchLoop_stops interp txFeed k fuel w1 Hgo Hstop Hfuel).
    eexists. split; [reflexivity|].
    destruct (rounds_fields interp txFeed (S k) w1) as (_ & _ & _ & Hcalls & _ & _ & Htrace).
    unfold cliSetUartDirectionMode. cbn [Z.eqb UART_RX_MODE].
    repeat split.
    + cbn [trace with_cli set_pins log]. rewrite Htrace, <- app_assoc. reflexivity.
    + cbn [cliCalls with_cli set_pins log]. exact Hcalls.
  - intros Hgo. rewrite deliver_END_CHAR_eq. fold w1.
    rewrite (dispatchLoop_runs interp txFeed fuel w1 Hgo).
    split; [reflexivity|].
    destruct (rounds_fields interp txFeed fuel w1) as (_ & _ & _ & Hcalls & _). exact Hcalls.
Qed.

(** An interpreter with ever more output, and a transport whose second
    transmission fails: the loop ends after the second round. *)
Lemma dispatch_loop_ends_at_first_stop_witness :
  exists w',
    deliver interp_endless tx_second_fails 5 CLI_END_CHAR world_zero = Done Normal w'
    /\ trace w' = trace world_zero
         ++ concat (map (round_events interp_endless
                           (cstr (rxBuffer (cliInstance (terminate_line world_zero)))))
                        (List.seq (cliCalls world_zero) 2))
         ++ [EvMode UART_RX_MODE]
    /\ cliCalls w' = (cliCalls world_zero + 2)%nat
    /\ in_rx_mode w' = true
    /\ rxIndex (cliInstance w') = 0.
Proof.
  destruct (dispatch_loop_ends_at_first_stop interp_endless tx_second_fails 5 world_zero)
    as [Hstop _].
  apply (Hstop 1%nat).
  - intros j Hj. destruct j as [|j]; [reflexivity | lia].
  - reflexivity.
  - lia.
Defined.

(** C8, as amended: when the bounded wait for a transmission-status event
    times out with no event delivered, the round counts as one whose
    status is not Failed. If the interpreter had returned pdFALSE the loop
    ends there and the UART returns to Receive mode; if the interpreter had
    reported more output pending, the loop goes on with a further
    interpreter call and a further write. *)
Theorem dispatch_timeout_is_not_a_stop
    (interp : nat -> list Z -> Z * list Z) (txFeed : nat -> option Z)
    (fuel : nat) (w : World) :
  txFeed (txWaits w) = None ->
  let line := cstr (rxBuffer (cliInstance (terminate_line w))) in
  let returnStatus := fst (interp (cliCalls w) line) in
  (returnStatus = pdFALSE ->
     exists w',
       deliver interp txFeed (S fuel) CLI_END_CHAR w = Done Normal w'
       /\ trace w' = trace w ++ round_events interp line (cliCalls w) ++ [EvMode UART_RX_MODE]
       /\ in_rx_mode w' = true)
  /\ (returnStatus <> pdFALSE ->
      exists rest,
        trace (state_of (deliver interp txFeed (S (S fuel)) CLI_END_CHAR w))
        = trace w ++ round_events interp line (cliCalls w)
                  ++ round_events interp line (S (cliCalls w)) ++ rest).
Proof.
  intros Htimeout line returnStatus. subst line returnStatus.
  set (w1 := terminate_line (with_cli (set_rxChar CLI_END_CHAR) w)).
  assert (Hstop0 : stops_after interp txFeed w1 0
                   = (fst (interp (cliCalls w) (cstr (rxBuffer (cliInstance w1)))) =? pdFALSE)).
  { unfold stops_after, round_stops. cbn [cliCalls txWaits w1 terminate_line with_cli].
    rewrite !Nat.add_0_r, Htimeout. rewrite bool_decide_eq_false_2 by discriminate.
    apply orb_false_r. }
  split; intros Hret.
  - rewrite deliver_END_CHAR_eq. fold w1.
    rewrite (dispatchLoop_stops interp txFeed 0 (S fuel) w1); [| intros j Hj; lia | | lia].
    + eexists. split; [reflexivity|].
      destruct (rounds_fields interp txFeed 1 w1) as (_ & _ & _ & _ & _ & _ & Htrace).
      unfold cliSetUartDirectionMode. cbn [Z.eqb UART_RX_MODE].
      split; [|reflexivity].
      cbn [trace with_cli set_pins log]. rewrite Htrace. cbn [List.seq map concat].
      rewrite app_nil_r, <- app_assoc. reflexivity.
    + rewrite Hstop0. apply Z.eqb_eq. exact Hret.
  - rewrite deliver_END_CHAR_eq. fold w1.
    unfold dispatchLoop. cbn [do_while]. rewrite dispatchRound_eq.
    rewrite Hstop0. apply Z.eqb_neq in Hret.
    change (cstr (rxBuffer (cliInstance w1)))
      with (cstr (rxBuffer (cliInstance (terminate_line w)))).
    rewrite Hret. rewrite dispatchRound_eq.
    set (w2 := round_world interp w1). set (w3 := round_world interp w2).
    assert (Htr3 : trace w3 = trace w
              ++ round_events interp (cstr (rxBuffer (cliInstance (terminate_line w)))) (cliCalls w)
              ++ round_events interp (cstr (rxBuffer (cliInstance (terminate_line w))))
                   (S (cliCalls w))).
    { destruct (rounds_fields interp txFeed 2 w1) as (_ & _ & _ & _ & _ & _ & Htrace).
      cbn [rounds] in Htrace. fold w2 w3 in Htrace. rewrite Htrace.
      cbn [List.seq map concat]. rewrite app_nil_r. reflexivity. }
    destruct (stops_after interp txFeed w2 0).
    + exists [EvMode UART_RX_MODE]. cbn [state_of].
      unfold cliSetUartDirectionMode. cbn [Z.eqb UART_RX_MODE].
      cbn [trace with_cli set_pins log]. rewrite Htr3, <- !app_assoc. reflexivity.
    + destruct (dispatchLoop_shape interp txFeed fuel w3) as (n & Hn).
      destruct (rounds_fields interp txFeed n w3) as (_ & _ & _ & _ & _ & _ & Htrn).
      unfold dispatchLoop in Hn.
      destruct Hn as [-> | ->]; cbn [state_of];
        [unfold cliSetUartDirectionMode; cbn [Z.eqb UART_RX_MODE];
         cbn [trace with_cli set_pins log] |];
        rewrite Htrn, Htr3, <- !app_assoc; eexists; reflexivity.
Qed.

Lemma dispatch_timeout_is_not_a_stop_witness :
  exists rest,
    trace (state_of (deliver interp_two_chunks tx_first_timeout 2 CLI_END_CHAR world_zero))
    = trace world_zero
      ++ round_events interp_two_chunks
           (cstr (rxBuffer (cliInstance (terminate_line world_zero)))) (cliCalls world_zero)
      ++ round_events interp_two_chunks
           (cstr (rxBuffer (cliInstance (terminate_line world_zero))))
           (S (cliCalls world_zero))
      ++ rest.
Proof.
  destruct (dispatch_timeout_is_not_a_stop interp_two_chunks tx_first_timeout 0 world_zero
              eq_refl) as [_ Hgo].
  apply Hgo. vm_compute. discriminate.
Defined.

(** C8, as stated, fails: the interpreter reports more output pending and
    the wait for the status event of the first write times out; the loop
    does not abort, it calls the interpreter a second time and writes its
    second chunk before returning to Receive mode. *)
Lemma dispatch_continues_after_timeout :
  tx_first_timeout (txWaits world_zero) = None
  /\ trace (state_of (deliver interp_two_chunks tx_first_timeout 5 CLI_END_CHAR world_zero))
     = [EvCliProcess []; EvMode UART_TX_MODE; EvWrite (chars "ab"); EvTxWait (Some 1000);
        EvCliProcess []; EvMode UART_TX_MODE; EvWrite (chars "cd"); EvTxWait (Some 1000);
        EvMode UART_RX_MODE].
Proof. split; vm_compute; reflexivity. Qed.

(** ** Start-up *)

(** The status [CliStartup] returns, by the first step that fails. *)
Lemma CliStartup_status (e : StartupEnv) (w : World) :
  fst (CliStartup e w) =
    if negb (fst (usart_async_get_io_descriptor e) =? ERR_NONE)
       || (snd (usart_async_get_io_descriptor e) =? NULL) then 0
    else if (xQueueCreate_rx e =? NULL) || (xQueueCreate_tx e =? NULL) then -1
    else if negb (register_RXC_CB e =? ERR_NONE)
            || negb (register_TXC_CB e =? ERR_NONE)
            || negb (register_ERROR_CB e =? ERR_NONE) then -2
    else if negb (usart_async_enable e =? ERR_NONE) then -3
    else if negb (fst (xTaskCreate e) =? pdPASS) then -4
    else 0.
Proof.
  unfold CliStartup, CliStartup_body. cbn [do_while].
  unfold then_, ifte, act, skip, break_. simpl.
  repeat match goal with
         | |- context [if ?b then _ else _] => destruct b eqn:?; simpl
         end; reflexivity.
Qed.

(** C3 (the code departs from it): when the transport descriptor is
    refused, [CliStartup] returns 0, the status of a start-up in which all
    five steps succeed, and not a negative code; no task is created. The
    other four failures return -1, -2, -3 and -4, the first three before
    the task is created. *)
Theorem CliStartup_descriptor_failure_returns_zero :
  fst (CliStartup env_no_descriptor world_zero) = 0
  /\ task_created (snd (CliStartup env_no_descriptor world_zero)) = false
  /\ fst (CliStartup env_all_ok world_zero) = 0
  /\ task_created (snd (CliStartup env_all_ok world_zero)) = true
  /\ fst (CliStartup env_no_queue world_zero) = -1
  /\ task_created (snd (CliStartup env_no_queue world_zero)) = false
  /\ fst (CliStartup env_no_callback world_zero) = -2
  /\ task_created (snd (CliStartup env_no_callback world_zero)) = false
  /\ fst (CliStartup env_no_enable world_zero) = -3
  /\ task_created (snd (CliStartup env_no_enable world_zero)) = false
  /\ fst (CliStartup env_no_task world_zero) = -4
  /\ task_created (snd (CliStartup env_no_task world_zero)) = false.
Proof. repeat split; vm_compute; reflexivity. Qed.

(** ** The command callbacks *)

Lemma store_bytes_outside (bytes : list Z) : forall (a : Z) (m : mem) (x : Z),
  x < a \/ a + Z.of_nat (length bytes) <= x ->
  store_bytes a bytes m x = m x.
Proof.
  induction bytes as [|b bytes IH]; intros a m x Hx; simpl; [reflexivity|].
  rewrite IH by (simpl length in Hx; lia).
  destruct (Z.eqb_spec x a); [simpl length in Hx; lia | reflexivity].
Qed.

(** With any capacity other than the length of the message, a callback
    stays inside the buffer and returns pdFALSE. *)
Lemma cliCallbackHelloCommand_in_bounds
    (pcWriteBuffer xWriteBufferLen pcCommandString : Z) (m : mem) (x : Z) :
  0 <= xWriteBufferLen ->
  xWriteBufferLen <> Z.of_nat (strlen hello) ->
  x < pcWriteBuffer \/ pcWriteBuffer + xWriteBufferLen <= x ->
  snd (cliCallbackHelloCommand pcWriteBuffer xWriteBufferLen pcCommandString m) x = m x
  /\ fst (cliCallbackHelloCommand pcWriteBuffer xWriteBufferLen pcCommandString m) = pdFALSE.
Proof.
  intros Hlen Hne Hx. unfold cliCallbackHelloCommand.
  change (Z.of_nat (strlen hello)) with 14 in *.
  destruct ((pcWriteBuffer =? NULL) || (xWriteBufferLen =? 0)); [split; reflexivity|].
  destruct (Z.gtb_spec 14 xWriteBufferLen); [split; reflexivity|].
  split; [|reflexivity]. simpl snd. unfold strcpy.
  apply store_bytes_outside.
  change (Z.of_nat (length (cstr hello ++ [0]))) with 15. lia.
Qed.

Lemma cliCallbackVersionCommand_in_bounds
    (pcWriteBuffer xWriteBufferLen pcCommandString : Z) (m : mem) (x : Z) :
  0 <= xWriteBufferLen ->
  xWriteBufferLen <> Z.of_nat (strlen version) ->
  x < pcWriteBuffer \/ pcWriteBuffer + xWriteBufferLen <= x ->
  snd (cliCallbackVersionCommand pcWriteBuffer xWriteBufferLen pcCommandString m) x = m x
  /\ fst (cliCallbackVersionCommand pcWriteBuffer xWriteBufferLen pcCommandString m) = pdFALSE.
Proof.
  intros Hlen Hne Hx. unfold cliCallbackVersionCommand.
  change (Z.of_nat (strlen version)) with 20 in *.
  destruct ((pcWriteBuffer =? NULL) || (xWriteBufferLen =? 0)); [split; reflexivity|].
  destruct (Z.gtb_spec 20 xWriteBufferLen); [split; reflexivity|].
  split; [|reflexivity]. simpl snd. unfold strcpy.
  apply store_bytes_outside.
  change (Z.of_nat (length (cstr version ++ [0]))) with 21. lia.
Qed.

(** C10 (the code departs from it): called with a buffer of exactly as
    many bytes as the message has characters (14 for "hello", 20 for
    "version"), the callback passes its size check and [strcpy] stores the
    terminating NUL one byte past the buffer: the byte at offset
    xWriteBufferLen, 0xFF before the call, is 0 after it. The callbacks
    return pdFALSE. *)
Theorem command_callbacks_write_past_exact_fit :
  Z.of_nat (strlen hello) = 14
  /\ fst (cliCallbackHelloCommand 1000 14 0 mem_ff) = pdFALSE
  /\ mem_ff (1000 + 14) = 255
  /\ snd (cliCallbackHelloCommand 1000 14 0 mem_ff) (1000 + 14) = 0
  /\ Z.of_nat (strlen version) = 20
  /\ fst (cliCallbackVersionCommand 1000 20 0 mem_ff) = pdFALSE
  /\ mem_ff (1000 + 20) = 255
  /\ snd (cliCallbackVersionCommand 1000 20 0 mem_ff) (1000 + 20) = 0.
Proof. repeat split; vm_compute; reflexivity. Qed.

(** * Further properties of the code *)

(** ** Start-up *)

(** X1: [CliStartup] creates the session task exactly when all five
    start-up steps succeed, and then returns 0; a negative status is
    returned only when a step failed; and however it returns, it leaves the
    UART in Receive mode. *)
Theorem CliStartup_task_iff_all_steps (e : StartupEnv) (w : World) :
  task_created w = false ->
  task_created (snd (CliStartup e w)) = startup_ok e
  /\ (startup_ok e = true -> fst (CliStartup e w) = 0)
  /\ (fst (CliStartup e w) < 0 -> startup_ok e = false)
  /\ in_rx_mode (snd (CliStartup e w)) = true.
Proof.
  intros Hnone.
  unfold CliStartup, CliStartup_body, startup_ok, task_created in *. cbn [do_while].
  unfold then_, ifte, act, skip, break_. simpl.
  destruct (fst (usart_async_get_io_descriptor e) =? ERR_NONE); simpl;
    [| rewrite existsb_app, Hnone; repeat split; auto; lia].
  destruct (snd (usart_async_get_io_descriptor e) =? NULL); simpl;
    [rewrite existsb_app, Hnone; repeat split; auto; lia|].
  destruct (xQueueCreate_rx e =? NULL); simpl;
    [rewrite existsb_app, Hnone; repeat split; auto; discriminate|].
  destruct (xQueueCreate_tx e =? NULL); simpl;
    [rewrite existsb_app, Hnone; repeat split; auto; discriminate|].
  destruct (register_RXC_CB e =? ERR_NONE); simpl;
    [| rewrite !existsb_app, Hnone; repeat split; auto; discriminate].
  destruct (register_TXC_CB e =? ERR_NONE); simpl;
    [| rewrite !existsb_app, Hnone; repeat split; auto; discriminate].
  destruct (register_ERROR_CB e =? ERR_NONE); simpl;
    [| rewrite !existsb_app, Hnone; repeat split; auto; discriminate].
  destruct (usart_async_enable e =? ERR_NONE); simpl;
    [| rewrite !existsb_app, Hnone; repeat split; auto; discriminate].
  destruct (fst (xTaskCreate e) =? pdPASS) eqn:Htask; simpl;
    rewrite !existsb_app, Hnone; simpl; rewrite Htask;
    repeat split; auto; try discriminate; lia.
Qed.

Lemma CliStartup_task_iff_all_steps_witness :
  task_created (snd (CliStartup env_no_enable world_zero)) = startup_ok env_no_enable
  /\ (startup_ok env_no_enable = true -> fst (CliStartup env_no_enable world_zero) = 0)
  /\ (fst (CliStartup env_no_enable world_zero) < 0 -> startup_ok env_no_enable = false)
  /\ in_rx_mode (snd (CliStartup env_no_enable world_zero)) = true.
Proof. apply (CliStartup_task_iff_all_steps env_no_enable world_zero). reflexivity. Defined.



(** ** The interrupt handlers *)

(** One run of the receive handler, by cases. *)
Lemma cliRxReceivedCb_cases (uart : Z) (io_read : Z * Z) (woken : Z) (s : Isr) :
  cliRxReceivedCb uart io_read woken s =
    if io (isr_cli s) =? NULL then s
    else if fst io_read <=? 0 then s
    else if Z.of_nat (length (rxItems s)) <? CLI_QUEUE_LENGTH
         then portYIELD_FROM_ISR woken
                (set_rxItems (rxItems s ++ [snd io_read])
                   (isr_with_cli (set_rxChar (snd io_read)) s))
         else isr_with_cli (set_rxChar (snd io_read)) s.
Proof.
  unfold cliRxReceivedCb, cliRxReceivedCb_body. cbn [do_while].
  unfold then_, ifte, act, skip, break_, xQueueSendFromISR. simpl.
  destruct (io (isr_cli s) =? NULL); [reflexivity|].
  destruct (Z.leb_spec (fst io_read) 0) as [Hle|Hgt].
  - destruct (Z.ltb_spec 0 (fst io_read)); [lia | reflexivity].
  - destruct (Z.ltb_spec 0 (fst io_read)); [|lia]. simpl.
    destruct (Z.of_nat (length (rxItems s)) <? CLI_QUEUE_LENGTH); simpl.
    + reflexivity.
    + destruct s; reflexivity.
Qed.

(** X3: one run of the receive handler. Without a descriptor, or when
    the driver's read yields no byte, it changes nothing. With a byte and
    room in the queue, the byte goes to the back of the queue and a context
    switch is requested exactly when the kernel set the woken flag. With a
    byte and a full queue the byte is dropped: the queue is unchanged and
    no context switch is requested. The handler never touches the status
    queue and never trips an assertion. *)
Theorem cliRxReceivedCb_one_run (uart : Z) (io_read : Z * Z) (woken : Z) (s : Isr) :
  let s' := cliRxReceivedCb uart io_read woken s in
  (io (isr_cli s) = NULL \/ fst io_read <= 0 -> s' = s)
  /\ (io (isr_cli s) <> NULL -> 0 < fst io_read ->
      (Z.of_nat (length (rxItems s)) < CLI_QUEUE_LENGTH ->
         rxItems s' = rxItems s ++ [snd io_read]
         /\ yields s' = if woken =? pdFALSE then yields s else S (yields s))
      /\ (CLI_QUEUE_LENGTH <= Z.of_nat (length (rxItems s)) ->
         rxItems s' = rxItems s /\ yields s' = yields s))
  /\ txItems s' = txItems s
  /\ asserts s' = asserts s.
Proof.
  intros s'. subst s'. rewrite cliRxReceivedCb_cases.
  destruct (Z.eqb_spec (io (isr_cli s)) NULL) as [Hio|Hio];
    [repeat split; auto; intros; contradiction|].
  destruct (Z.leb_spec (fst io_read) 0) as [Hle|Hgt];
    [repeat split; auto; intros; lia|].
  destruct (Z.ltb_spec (Z.of_nat (length (rxItems s))) CLI_QUEUE_LENGTH) as [Hroom|Hfull].
  - unfold portYIELD_FROM_ISR.
    destruct (woken =? pdFALSE); simpl; repeat split; auto; intros; try lia;
      destruct H as [H|H]; try contradiction; lia.
  - simpl; repeat split; auto; intros; try lia;
      destruct H as [H|H]; try contradiction; lia.
Qed.

Lemma cliRxReceivedCb_one_run_witness :
  rxItems (cliRxReceivedCb 5 (1, 65) pdTRUE isr_zero) = [65]
  /\ yields (cliRxReceivedCb 5 (1, 65) pdTRUE isr_zero) = 1%nat.
Proof.
  destruct (cliRxReceivedCb_one_run 5 (1, 65) pdTRUE isr_zero) as (_ & Hpush & _).
  apply Hpush; [discriminate | reflexivity | reflexivity].
Defined.

Lemma receiveAll_items (uart : Z) (bytes : list (Z * Z)) : forall s : Isr,
  io (isr_cli s) <> NULL ->
  rxItems (receiveAll uart bytes s) =
    rxItems s ++ take (Z.to_nat CLI_QUEUE_LENGTH - length (rxItems s)) (map fst bytes).
Proof.
  unfold CLI_QUEUE_LENGTH.
  induction bytes as [|[b woken] bytes IH]; intros s Hio; cbn [receiveAll map].
  - rewrite take_nil, app_nil_r. reflexivity.
  - assert (Hio' : io (isr_cli (cliRxReceivedCb uart (1, b) woken s)) <> NULL).
    { rewrite cliRxReceivedCb_cases. apply Z.eqb_neq in Hio. rewrite Hio. simpl.
      unfold portYIELD_FROM_ISR.
      repeat case_match; simpl; apply Z.eqb_neq; exact Hio. }
    rewrite (IH _ Hio').
    assert (Hstep : rxItems (cliRxReceivedCb uart (1, b) woken s)
                    = if Z.of_nat (length (rxItems s)) <? 10
                      then rxItems s ++ [b] else rxItems s).
    { rewrite cliRxReceivedCb_cases. apply Z.eqb_neq in Hio. rewrite Hio. simpl.
      unfold portYIELD_FROM_ISR, CLI_QUEUE_LENGTH.
      repeat case_match; reflexivity. }
    rewrite Hstep.
    destruct (Z.ltb_spec (Z.of_nat (length (rxItems s))) 10) as [Hroom|Hfull].
    + rewrite length_app. cbn [length].
      replace (Z.to_nat 10 - length (rxItems s))%nat
        with (S (Z.to_nat 10 - (length (rxItems s) + 1)))%nat by lia.
      cbn [take]. rewrite <- app_assoc. reflexivity.
    + replace (Z.to_nat 10 - length (rxItems s))%nat with 0%nat by lia.
      reflexivity.
Qed.

(** X4: the byte queue fed by the receive handler is a bounded, lossy
    FIFO. After the handler has run for a sequence of bytes with no task
    taking any, the queue holds what it held before, followed by the bytes
    in order of arrival up to the room there was; the bytes beyond that are
    dropped, and the queue never grows past its capacity. *)
Theorem receiveAll_bounded_fifo (uart : Z) (bytes : list (Z * Z)) (s : Isr) :
  io (isr_cli s) <> NULL ->
  rxItems (receiveAll uart bytes s) =
    rxItems s ++ take (Z.to_nat CLI_QUEUE_LENGTH - length (rxItems s)) (map fst bytes)
  /\ (length (rxItems s) <= Z.to_nat CLI_QUEUE_LENGTH ->
      length (rxItems (receiveAll uart bytes s)) <= Z.to_nat CLI_QUEUE_LENGTH)%nat.
Proof.
  intros Hio. rewrite (receiveAll_items uart bytes s Hio). split; [reflexivity|].
  intros Hlen. rewrite length_app, length_take. lia.
Qed.

Lemma receiveAll_bounded_fifo_witness :
  rxItems (receiveAll 5 (map (fun b => (b, pdFALSE)) (map Z.of_nat (List.seq 1 12))) isr_zero)
  = map Z.of_nat (List.seq 1 10).
Proof.
  apply (receiveAll_bounded_fifo 5 (map (fun b => (b, pdFALSE)) (map Z.of_nat (List.seq 1 12)))
           isr_zero).
  discriminate.
Defined.

(** One run of a status handler, by cases. *)
Lemma tx_status_cases (uart msg : Z) (s : Isr) :
  state_of (do_while 1 (tx_status_body uart msg) (fun _ => false) s) =
    if (io (isr_cli s) =? NULL) || negb (isr_uart s =? uart) then s
    else if Z.of_nat (length (txItems s)) <? CLI_QUEUE_LENGTH
         then set_txItems (txItems s ++ [msg]) s
         else ASSERT_0 s.
Proof.
  cbn [do_while]. unfold tx_status_body, then_, ifte, act, skip, break_, xQueueSendFromISR.
  destruct ((io (isr_cli s) =? NULL) || negb (isr_uart s =? uart)); [reflexivity|].
  destruct (Z.of_nat (length (txItems s)) <? CLI_QUEUE_LENGTH); simpl; [reflexivity|].
  destruct s; reflexivity.
Qed.

(** X5: the two status handlers. Called for the console's own UART with
    the descriptor set, [cliTxCompletedCb] puts exactly one CLI_TX_COMPLETE
    and [cliRxTxErr] exactly one CLI_MSG_ERR at the back of the status
    queue when it has room, and trips the assertion, leaving the queue as
    it is, when it is full. Called for another UART, or before the
    descriptor is set, they do nothing. *)
Theorem status_handlers_queue_one_tag (uart : Z) (s : Isr) :
  (io (isr_cli s) = NULL \/ isr_uart s <> uart ->
     cliTxCompletedCb uart s = s /\ cliRxTxErr uart s = s)
  /\ (io (isr_cli s) <> NULL -> isr_uart s = uart ->
      (Z.of_nat (length (txItems s)) < CLI_QUEUE_LENGTH ->
         cliTxCompletedCb uart s = set_txItems (txItems s ++ [CLI_TX_COMPLETE]) s
         /\ cliRxTxErr uart s = set_txItems (txItems s ++ [CLI_MSG_ERR]) s)
      /\ (CLI_QUEUE_LENGTH <= Z.of_nat (length (txItems s)) ->
         cliTxCompletedCb uart s = ASSERT_0 s /\ cliRxTxErr uart s = ASSERT_0 s)).
Proof.
  unfold cliTxCompletedCb, cliRxTxErr. rewrite !tx_status_cases.
  destruct (Z.eqb_spec (io (isr_cli s)) NULL) as [Hio|Hio]; simpl.
  { split; [auto | intros; contradiction]. }
  destruct (Z.eqb_spec (isr_uart s) uart) as [Hu|Hu]; simpl.
  - split; [intros [H|H]; contradiction|]. intros _ _.
    destruct (Z.ltb_spec (Z.of_nat (length (txItems s))) CLI_QUEUE_LENGTH);
      split; intros; auto; lia.
  - split; [auto | intros; contradiction].
Qed.

Lemma status_handlers_queue_one_tag_witness :
  cliTxCompletedCb 5 isr_zero = set_txItems [CLI_TX_COMPLETE] isr_zero
  /\ cliRxTxErr 5 isr_zero = set_txItems [CLI_MSG_ERR] isr_zero.
Proof.
  destruct (status_handlers_queue_one_tag 5 isr_zero) as [_ Hok].
  apply Hok; [discriminate | reflexivity | reflexivity].
Defined.

Lemma status_handlers_tags (uart : Z) (s : Isr) :
  io (isr_cli s) <> NULL ->
  isr_uart s = uart ->
  txItems s = [] ->
  head (txItems (cliRxTxErr uart s)) = Some CLI_MSG_ERR
  /\ head (txItems (cliTxCompletedCb uart s)) = Some CLI_TX_COMPLETE.
Proof.
  intros Hio Hu Hempty. unfold cliTxCompletedCb, cliRxTxErr. rewrite !tx_status_cases.
  apply Z.eqb_neq in Hio. apply Z.eqb_eq in Hu. rewrite Hio, Hu, Hempty. simpl.
  split; reflexivity.
Qed.

(** X6: the handlers and the dispatch loop agree on the status bytes. When
    the byte a dispatch round takes from the status queue is the one
    [cliRxTxErr] queued, the round ends the loop whatever the interpreter
    returned; when it is the one [cliTxCompletedCb] queued, the round ends
    the loop exactly when the interpreter returned pdFALSE. *)
Theorem status_tags_drive_dispatch
    (interp : nat -> list Z -> Z * list Z) (txFeed : nat -> option Z)
    (uart : Z) (s : Isr) (w : World) :
  io (isr_cli s) <> NULL ->
  isr_uart s = uart ->
  txItems s = [] ->
  (txFeed (txWaits w) = head (txItems (cliRxTxErr uart s)) ->
     dispatchRound interp txFeed w = Done Break (round_world interp w))
  /\ (txFeed (txWaits w) = head (txItems (cliTxCompletedCb uart s)) ->
      dispatchRound interp txFeed w =
        Done (if fst (interp (cliCalls w) (cstr (rxBuffer (cliInstance w)))) =? pdFALSE
              then Break else Normal)
             (round_world interp w)).
Proof.
  intros Hio Hu Hempty.
  destruct (status_handlers_tags uart s Hio Hu Hempty) as [-> ->].
  rewrite !dispatchRound_eq. unfold stops_after, round_stops. rewrite !Nat.add_0_r.
  split; intros ->; simpl.
  - rewrite orb_true_r. reflexivity.
  - rewrite orb_false_r. reflexivity.
Qed.

Lemma status_tags_drive_dispatch_witness :
  dispatchRound interp_endless tx_second_fails
    (round_world interp_endless world_zero)
  = Done Break (round_world interp_endless (round_world interp_endless world_zero)).
Proof.
  destruct (status_tags_drive_dispatch interp_endless tx_second_fails 5 isr_zero
              (round_world interp_endless world_zero)) as [Herr _];
    [discriminate | reflexivity | reflexivity |].
  apply Herr. reflexivity.
Defined.

(** ** Sending a message *)

Lemma sent_fields (message : list Z) (c : Z) (w : World) :
  trace (sent message c w) = trace w ++ message_events message
  /\ cliInstance (sent message c w) = set_txChar c (cliInstance w)
  /\ in_rx_mode (sent message c w) = true
  /\ txWaits (sent message c w) = S (txWaits w)
  /\ rxWaits (sent message c w) = rxWaits w
  /\ cliCalls (sent message c w) = cliCalls w.
Proof.
  unfold sent, sending, message_events; simpl.
  rewrite <- !app_assoc. repeat split; reflexivity.
Qed.

Lemma cliSendMessage_delivered (txFeed : nat -> option Z) (message : list Z) (c : Z)
    (w : World) :
  txFeed (txWaits w) = Some c ->
  cliSendMessage txFeed message w = Done Normal (sent message c w).
Proof.
  intros H. unfold cliSendMessage, then_, act, xQueueReceive. simpl. rewrite H. reflexivity.
Qed.

Lemma cliSendMessage_starved (txFeed : nat -> option Z) (message : list Z) (w : World) :
  txFeed (txWaits w) = None ->
  cliSendMessage txFeed message w = Blocked (sending message w).
Proof.
  intros H. unfold cliSendMessage, then_, act, xQueueReceive. simpl. rewrite H. reflexivity.
Qed.

(** X7: [cliSendMessage] brackets its write. When a status byte arrives,
    Completed or Failed alike, the call has switched to Transmit mode,
    written the characters of the message, taken the byte and switched back
    to Receive mode, and of the instance only [txChar] has changed. When no
    status byte ever arrives the call does not return, and the UART stays
    in Transmit mode. *)
Theorem cliSendMessage_brackets_write (txFeed : nat -> option Z) (message : list Z)
    (w : World) :
  (forall c, txFeed (txWaits w) = Some c ->
     exists w',
       cliSendMessage txFeed message w = Done Normal w'
       /\ trace w' = trace w ++ message_events message
       /\ in_rx_mode w' = true
       /\ cliInstance w' = set_txChar c (cliInstance w))
  /\ (txFeed (txWaits w) = None ->
      exists w',
        cliSendMessage txFeed message w = Blocked w'
        /\ trace w' = trace w ++ [EvMode UART_TX_MODE; EvWrite (cstr message); EvTxWait None]
        /\ in_rx_mode w' = false
        /\ cliInstance w' = cliInstance w).
Proof.
  split.
  - intros c H. exists (sent message c w).
    destruct (sent_fields message c w) as (Ht & Hc & Hm & _).
    rewrite (cliSendMessage_delivered txFeed message c w H). auto.
  - intros H. exists (sending message w).
    rewrite (cliSendMessage_starved txFeed message w H).
    unfold sending; simpl. rewrite <- !app_assoc. auto.
Qed.

Lemma cliSendMessage_brackets_write_witness :
  exists w',
    cliSendMessage tx_second_fails PROMPT_PASSWORD (sent AUTH_FAIL 1 world_zero) = Done Normal w'
    /\ trace w' = trace (sent AUTH_FAIL 1 world_zero) ++ message_events PROMPT_PASSWORD
    /\ in_rx_mode w' = true
    /\ cliInstance w' = set_txChar CLI_MSG_ERR (cliInstance (sent AUTH_FAIL 1 world_zero)).
Proof.
  destruct (cliSendMessage_brackets_write tx_second_fails PROMPT_PASSWORD
              (sent AUTH_FAIL 1 world_zero)) as [Hdone _].
  apply Hdone. reflexivity.
Defined.

(** ** More of the authentication machine *)

Lemma cliAuthenticate_step (txFeed : nat -> option Z) (n : nat) (w w1 : World) :
  authSwitch txFeed w = Done Normal w1 ->
  cliAuthenticate txFeed (S n) w = cliAuthenticate txFeed n w1.
Proof. intros H. unfold cliAuthenticate. cbn [do_while]. rewrite H. reflexivity. Qed.

(** The arms that send a message, when its status byte arrives. *)
Lemma authSwitch_LOG_IN (txFeed : nat -> option Z) (c : Z) (w : World) :
  authState (cliInstance w) = FSM_LOG_IN ->
  txFeed (txWaits w) = Some c ->
  authSwitch txFeed w =
    Done Normal
      (with_cli (set_authState FSM_INPUT)
         (with_cli (set_rxIndex 0)
            (sent PROMPT_PASSWORD c
               (with_cli (set_rxBuffer (memset0 CLI_RX_BUFFER_SIZE)) w)))).
Proof.
  intros H Hfeed. rewrite auth_arms. cbv zeta. rewrite H. simpl Z.eqb. cbv iota.
  unfold auth_LOG_IN, switch_, then_ at 1, act at 1.
  unfold then_ at 1.
  rewrite (cliSendMessage_delivered txFeed PROMPT_PASSWORD c) by exact Hfeed.
  reflexivity.
Qed.

Lemma authSwitch_ERR (txFeed : nat -> option Z) (c : Z) (w : World) :
  authState (cliInstance w) = FSM_ERR ->
  txFeed (txWaits w) = Some c ->
  authSwitch txFeed w =
    Done Normal
      (with_cli (set_authState FSM_LOG_IN)
         (with_cli (set_rxIndex 0)
            (with_cli (set_rxBuffer (memset0 CLI_RX_BUFFER_SIZE))
               (sent AUTH_FAIL c w)))).
Proof.
  intros H Hfeed. rewrite auth_arms. cbv zeta. rewrite H. simpl Z.eqb. cbv iota.
  unfold auth_ERR, switch_, then_ at 1.
  rewrite (cliSendMessage_delivered txFeed AUTH_FAIL c) by exact Hfeed.
  reflexivity.
Qed.

(** In Collecting with no line feed in the buffer the loop turns in place. *)
Lemma cliAuthenticate_spins (txFeed : nat -> option Z) (w : World) :
  authState (cliInstance w) = FSM_INPUT ->
  strchr (rxBuffer (cliInstance w)) 10 = None ->
  forall fuel, cliAuthenticate txFeed fuel w = Running w.
Proof.
  intros H Hlf fuel. induction fuel as [|n IH]; [reflexivity|].
  rewrite (cliAuthenticate_step txFeed n w w); [exact IH|].
  rewrite (authSwitch_INPUT txFeed w H), Hlf.
  rewrite bool_decide_eq_false_2; [reflexivity|]. intros [i Hi]. discriminate.
Qed.

(** X8: in the Collecting state with no line feed in the line buffer,
    [cliAuthenticate] makes no progress: after any number of iterations it
    is still running in the very same state, having written nothing and
    read nothing. *)
Theorem collecting_without_line_feed_spins (txFeed : nat -> option Z) (fuel : nat)
    (w : World) :
  authState (cliInstance w) = FSM_INPUT ->
  strchr (rxBuffer (cliInstance w)) 10 = None ->
  cliAuthenticate txFeed fuel w = Running w.
Proof. intros H Hlf. apply cliAuthenticate_spins; assumption. Qed.

Lemma collecting_without_line_feed_spins_witness :
  cliAuthenticate tx_all_complete 1000 (world_in FSM_INPUT) = Running (world_in FSM_INPUT).
Proof.
  apply (collecting_without_line_feed_spins tx_all_complete 1000 (world_in FSM_INPUT));
    reflexivity.
Defined.

Lemma zero_buffer_no_line_feed : strchr (memset0 CLI_RX_BUFFER_SIZE) 10 = None.
Proof. reflexivity. Qed.

(** The Verifying arm as an equation, on a line that does not match and
    on one that does. *)
Lemma authSwitch_PROCESS_reject_eq (txFeed : nat -> option Z) (w : World) :
  authState (cliInstance w) = FSM_PROCESS ->
  upto_crlf (cstr (rxBuffer (cliInstance w))) <> chars "1234" ->
  authSwitch txFeed w =
    Done Normal
      (with_cli (set_authState FSM_ERR)
         (with_cli (fun c =>
            set_rxBuffer (store (Z.of_nat (strcspn (rxBuffer c) [13; 10; 0])) 0
                                (rxBuffer c)) c) w)).
Proof.
  intros H Hline. rewrite (authSwitch_PROCESS txFeed w H). cbv zeta.
  rewrite (proj2 (Z.eqb_neq _ _)); [reflexivity|].
  intros He. apply Hline. apply strcmp_zero_iff in He. simpl rxBuffer in He.
  rewrite cstr_cut_at_strcspn in He. exact He.
Qed.

Lemma authSwitch_PROCESS_accept_eq (txFeed : nat -> option Z) (c : Z) (w : World) :
  authState (cliInstance w) = FSM_PROCESS ->
  upto_crlf (cstr (rxBuffer (cliInstance w))) = chars "1234" ->
  txFeed (txWaits w) = Some c ->
  authSwitch txFeed w =
    Done Normal
      (sent AUTH_SUCCESS c
         (with_cli (set_authState FSM_LOG_OUT)
            (with_cli (set_rxBuffer (memset0 CLI_RX_BUFFER_SIZE)) w))).
Proof.
  intros H Hline Hfeed. rewrite (authSwitch_PROCESS txFeed w H). cbv zeta.
  rewrite (proj2 (Z.eqb_eq _ _)).
  - unfold switch_.
    rewrite (cliSendMessage_delivered txFeed AUTH_SUCCESS c) by exact Hfeed.
    reflexivity.
  - apply strcmp_zero_iff. simpl rxBuffer. rewrite cstr_cut_at_strcspn, Hline. reflexivity.
Qed.

(** From the Rejected state, with the status bytes of the two messages
    arriving: failure message, prompt, then Collecting for good. *)
Lemma cliAuthenticate_from_ERR (txFeed : nat -> option Z) (c1 c2 : Z) (fuel : nat)
    (w : World) :
  authState (cliInstance w) = FSM_ERR ->
  txFeed (txWaits w) = Some c1 ->
  txFeed (S (txWaits w)) = Some c2 ->
  exists w',
    cliAuthenticate txFeed (2 + fuel) w = Running w'
    /\ authState (cliInstance w') = FSM_INPUT
    /\ rxBuffer (cliInstance w') = memset0 CLI_RX_BUFFER_SIZE
    /\ rxIndex (cliInstance w') = 0
    /\ trace w' = trace w ++ message_events AUTH_FAIL ++ message_events PROMPT_PASSWORD
    /\ rxWaits w' = rxWaits w
    /\ cliCalls w' = cliCalls w.
Proof.
  intros H Hf1 Hf2. eexists.
  cbn [Nat.add].
  set (w1 := with_cli (set_authState FSM_LOG_IN)
               (with_cli (set_rxIndex 0)
                  (with_cli (set_rxBuffer (memset0 CLI_RX_BUFFER_SIZE))
                     (sent AUTH_FAIL c1 w)))).
  rewrite (cliAuthenticate_step txFeed _ w w1 (authSwitch_ERR txFeed c1 w H Hf1)).
  rewrite (cliAuthenticate_step txFeed _ w1 _
             (authSwitch_LOG_IN txFeed c2 w1 eq_refl Hf2)).
  rewrite cliAuthenticate_spins by reflexivity.
  split; [reflexivity|]. simpl. rewrite <- !app_assoc. repeat split; reflexivity.
Qed.

(** X9: a line that does not match is answered and the prompt comes back.
    From the Verifying state with a line whose part before the first CR or
    LF is not the secret, and with the status bytes of the two messages
    arriving, the machine sends the failure message, then the prompt, and
    is then in Collecting with the buffer cleared and the cursor at 0,
    where it stays for good. *)
Theorem rejected_line_reprompts (txFeed : nat -> option Z) (c1 c2 : Z) (fuel : nat)
    (w : World) :
  authState (cliInstance w) = FSM_PROCESS ->
  upto_crlf (cstr (rxBuffer (cliInstance w))) <> chars "1234" ->
  txFeed (txWaits w) = Some c1 ->
  txFeed (S (txWaits w)) = Some c2 ->
  exists w',
    cliAuthenticate txFeed (3 + fuel) w = Running w'
    /\ authState (cliInstance w') = FSM_INPUT
    /\ rxBuffer (cliInstance w') = memset0 CLI_RX_BUFFER_SIZE
    /\ rxIndex (cliInstance w') = 0
    /\ trace w' = trace w ++ message_events AUTH_FAIL ++ message_events PROMPT_PASSWORD.
Proof.
  intros H Hline Hf1 Hf2.
  change (3 + fuel)%nat with (S (2 + fuel)).
  rewrite (cliAuthenticate_step _ _ _ _ (authSwitch_PROCESS_reject_eq txFeed w H Hline)).
  destruct (cliAuthenticate_from_ERR txFeed c1 c2 fuel
              (with_cli (set_authState FSM_ERR)
                 (with_cli (fun c =>
                    set_rxBuffer (store (Z.of_nat (strcspn (rxBuffer c) [13; 10; 0])) 0
                                        (rxBuffer c)) c) w)) eq_refl Hf1 Hf2)
    as (w' & Hrun & Hst & Hbuf & Hidx & Htr & _).
  exists w'. auto.
Qed.

Lemma rejected_line_reprompts_witness :
  exists w',
    cliAuthenticate tx_all_complete (3 + 5) (world_verifying (chars "9999" ++ [10; 0]))
      = Running w'
    /\ authState (cliInstance w') = FSM_INPUT
    /\ rxBuffer (cliInstance w') = memset0 CLI_RX_BUFFER_SIZE
    /\ rxIndex (cliInstance w') = 0
    /\ trace w' = trace (world_verifying (chars "9999" ++ [10; 0]))
                  ++ message_events AUTH_FAIL ++ message_events PROMPT_PASSWORD.
Proof.
  apply (rejected_line_reprompts tx_all_complete 1 1 5
           (world_verifying (chars "9999" ++ [10; 0])) eq_refl);
    [vm_compute; discriminate | reflexivity | reflexivity].
Defined.

(** X10: what follows a correct password. From the Verifying state with a
    line whose part before the first CR or LF is the secret, and with the
    status bytes of the three messages arriving, the machine sends the
    success message, then (the Authenticated state having no arm of its
    own) the failure message, then the prompt, and ends in Collecting with
    the buffer cleared, where it stays for good. *)
Theorem accepted_line_is_then_rejected (txFeed : nat -> option Z) (c0 c1 c2 : Z)
    (fuel : nat) (w : World) :
  authState (cliInstance w) = FSM_PROCESS ->
  upto_crlf (cstr (rxBuffer (cliInstance w))) = chars "1234" ->
  txFeed (txWaits w) = Some c0 ->
  txFeed (S (txWaits w)) = Some c1 ->
  txFeed (S (S (txWaits w))) = Some c2 ->
  exists w',
    cliAuthenticate txFeed (4 + fuel) w = Running w'
    /\ authState (cliInstance w') = FSM_INPUT
    /\ rxBuffer (cliInstance w') = memset0 CLI_RX_BUFFER_SIZE
    /\ trace w' = trace w ++ message_events AUTH_SUCCESS ++ message_events AUTH_FAIL
                          ++ message_events PROMPT_PASSWORD.
Proof.
  intros H Hline Hf0 Hf1 Hf2.
  change (4 + fuel)%nat with (S (S (2 + fuel))).
  set (w1 := sent AUTH_SUCCESS c0
               (with_cli (set_authState FSM_LOG_OUT)
                  (with_cli (set_rxBuffer (memset0 CLI_RX_BUFFER_SIZE)) w))).
  rewrite (cliAuthenticate_step txFeed _ w w1
             (authSwitch_PROCESS_accept_eq txFeed c0 w H Hline Hf0)).
  assert (Hdef : authSwitch txFeed w1 = Done Normal (with_cli (set_authState FSM_ERR) w1))
    by (apply authSwitch_default; simpl; discriminate).
  rewrite (cliAuthenticate_step txFeed _ w1 _ Hdef).
  match goal with |- context [cliAuthenticate txFeed (2 + fuel) ?w1] =>
    destruct (cliAuthenticate_from_ERR txFeed c1 c2 fuel w1 eq_refl Hf1 Hf2)
      as (w' & Hrun & Hst & Hbuf & _ & Htr & _)
  end.
  exists w'. repeat split; auto.
  rewrite Htr. simpl trace. rewrite <- !app_assoc. reflexivity.
Qed.

Lemma accepted_line_is_then_rejected_witness :
  exists w',
    cliAuthenticate tx_all_complete (4 + 0) (world_verifying (chars "1234" ++ [10; 0]))
      = Running w'
    /\ authState (cliInstance w') = FSM_INPUT
    /\ rxBuffer (cliInstance w') = memset0 CLI_RX_BUFFER_SIZE
    /\ trace w' = trace (world_verifying (chars "1234" ++ [10; 0]))
                  ++ message_events AUTH_SUCCESS ++ message_events AUTH_FAIL
                  ++ message_events PROMPT_PASSWORD.
Proof.
  apply (accepted_line_is_then_rejected tx_all_complete 1 1 1 0
           (world_verifying (chars "1234" ++ [10; 0])) eq_refl);
    [vm_compute; reflexivity | reflexivity | reflexivity | reflexivity].
Defined.

(** The task, once in its loop, is the authentication routine. *)
Lemma cliTask_is_cliAuthenticate
    (interp : nat -> list Z -> Z * list Z) (txFeed rxFeed : nat -> option Z)
    (n : nat) (w : World) :
  cliTask interp txFeed rxFeed (S n) w =
    cliAuthenticate txFeed (S n) (with_cli (set_authState FSM_LOG_IN) w).
Proof.
  pose proof (cliAuthenticate_not_completed txFeed (S n)
                (with_cli (set_authState FSM_LOG_IN) w)) as Hnot.
  unfold cliTask, then_ at 1, act at 1.
  rewrite while_stuck; rewrite then_stuck by exact Hnot; [reflexivity | exact Hnot].
Qed.

(** X11: what the session task does from its start. Whatever state the
    instance is in, once the status byte of the prompt arrives the task has
    sent the password prompt exactly once and is in Collecting with an
    empty buffer, and there it stays: it never takes a byte from the
    receive queue and never calls the command interpreter. *)
Theorem cliTask_prompts_once_then_spins
    (interp : nat -> list Z -> Z * list Z) (txFeed rxFeed : nat -> option Z)
    (c : Z) (fuel : nat) (w : World) :
  txFeed (txWaits w) = Some c ->
  exists w',
    cliTask interp txFeed rxFeed (S fuel) w = Running w'
    /\ trace w' = trace w ++ message_events PROMPT_PASSWORD
    /\ authState (cliInstance w') = FSM_INPUT
    /\ rxBuffer (cliInstance w') = memset0 CLI_RX_BUFFER_SIZE
    /\ rxWaits w' = rxWaits w
    /\ cliCalls w' = cliCalls w.
Proof.
  intros Hfeed. eexists. rewrite cliTask_is_cliAuthenticate.
  rewrite (cliAuthenticate_step txFeed _ (with_cli (set_authState FSM_LOG_IN) w) _
             (authSwitch_LOG_IN txFeed c (with_cli (set_authState FSM_LOG_IN) w)
                eq_refl Hfeed)).
  rewrite cliAuthenticate_spins by reflexivity.
  split; [reflexivity|]. simpl. rewrite <- !app_assoc. repeat split; reflexivity.
Qed.

Lemma cliTask_prompts_once_then_spins_witness :
  exists w',
    cliTask interp_once tx_all_complete (fun _ => Some 65) (S 50) world_zero = Running w'
    /\ trace w' = trace world_zero ++ message_events PROMPT_PASSWORD
    /\ authState (cliInstance w') = FSM_INPUT
    /\ rxBuffer (cliInstance w') = memset0 CLI_RX_BUFFER_SIZE
    /\ rxWaits w' = rxWaits world_zero
    /\ cliCalls w' = cliCalls world_zero.
Proof.
  apply (cliTask_prompts_once_then_spins interp_once tx_all_complete (fun _ => Some 65)
           1 50 world_zero).
  reflexivity.
Defined.

(** ** More of the line assembler *)

Lemma store_lookup_other (i v : Z) (a : list Z) (k : nat) :
  Z.to_nat i <> k -> store i v a !! k = a !! k.
Proof.
  intros Hne. unfold store. destruct (i <? 0); [reflexivity|].
  apply list_lookup_insert_ne. exact Hne.
Qed.

Lemma store_nul_keeps_last (i : Z) (a : list Z) :
  0 <= i <= 255 ->
  length a = 256%nat ->
  a !! 255%nat = Some 0 ->
  store i 0 a !! 255%nat = Some 0.
Proof.
  intros Hi Hlen Hlast. destruct (Nat.eq_dec (Z.to_nat i) 255%nat) as [He|Hne].
  - unfold store. destruct (Z.ltb_spec i 0); [lia|]. rewrite He.
    apply list_lookup_insert_eq. lia.
  - rewrite store_lookup_other by exact Hne. exact Hlast.
Qed.

Section AssemblerInvariant.
Variable FreeRTOS_CLIProcessCommand : nat -> list Z -> Z * list Z.
Variable txQueueFeed : nat -> option Z.

Lemma deliver_buffer_ok (fuel : nat) (c : Z) (w : World) :
  buffer_ok w ->
  buffer_ok (state_of (deliver FreeRTOS_CLIProcessCommand txQueueFeed fuel c w)).
Proof.
  unfold buffer_ok, CLI_RX_BUFFER_SIZE. intros (Hidx & Hlen & Hlast).
  change (Z.to_nat (256 - 1)) with 255%nat in *. change (Z.to_nat 256) with 256%nat in *.
  destruct (Z.eqb_spec c CLI_END_CHAR) as [->|Hc].
  - rewrite deliver_END_CHAR_eq.
    set (w1 := terminate_line (with_cli (set_rxChar CLI_END_CHAR) w)).
    assert (Hw1 : 0 <= rxIndex (cliInstance w1) <= 256 - 1
                  /\ length (rxBuffer (cliInstance w1)) = 256%nat
                  /\ rxBuffer (cliInstance w1) !! 255%nat = Some CLI_NULL_CHAR).
    { simpl. rewrite length_store. repeat split; try lia.
      apply store_nul_keeps_last; [lia | assumption | assumption]. }
    destruct (dispatchLoop_shape FreeRTOS_CLIProcessCommand txQueueFeed fuel w1) as (n & Hn).
    destruct (rounds_fields FreeRTOS_CLIProcessCommand txQueueFeed n w1)
      as (Hb & Hi & _).
    destruct Hn as [-> | ->]; cbn [state_of].
    + unfold with_cli. cbn [cliInstance]. rewrite cliSetUartDirectionMode_cli.
      unfold set_rxIndex. cbn [rxIndex rxBuffer]. rewrite Hb.
      repeat split; try lia; apply Hw1.
    + rewrite Hb, Hi. exact Hw1.
  - assert (Hex : exists w',
              deliver FreeRTOS_CLIProcessCommand txQueueFeed fuel c w = Done Normal w'
              /\ 0 <= rxIndex (cliInstance w') <= 256 - 1
              /\ length (rxBuffer (cliInstance w')) = 256%nat
              /\ rxBuffer (cliInstance w') !! 255%nat = Some CLI_NULL_CHAR).
    { unfold deliver, then_ at 1, act at 1, rxSwitch, switch_. simpl.
      apply Z.eqb_neq in Hc. rewrite Hc.
      destruct (c =? CLI_BS_CHAR).
      - unfold case_BS_CHAR, then_, ifte, act, skip, break_. simpl.
        destruct (Z.ltb_spec 0 (rxIndex (cliInstance w))) as [Hpos|Hzero];
          (eexists; split; [reflexivity|]); simpl.
        + assert (Hu : u16 (rxIndex (cliInstance w) - 1) = rxIndex (cliInstance w) - 1)
            by (unfold u16; rewrite Z.mod_small; lia).
          rewrite Hu, length_store. repeat split; try lia.
          rewrite store_lookup_other by lia. exact Hlast.
        + repeat split; try lia; assumption.
      - unfold case_default, then_, ifte, act, skip, break_, CLI_RX_BUFFER_SIZE. simpl.
        destruct (Z.ltb_spec (rxIndex (cliInstance w)) (256 - 1)) as [Hroom|Hfull];
          (eexists; split; [reflexivity|]); simpl.
        + assert (Hu : u16 (rxIndex (cliInstance w) + 1) = rxIndex (cliInstance w) + 1)
            by (unfold u16; rewrite Z.mod_small; lia).
          rewrite Hu, length_store. repeat split; try lia.
          rewrite store_lookup_other by lia. exact Hlast.
        + repeat split; try lia; assumption. }
    destruct Hex as (w' & -> & Hw'). exact Hw'.
Qed.

Lemma deliverAll_buffer_ok (fuel : nat) (bytes : list Z) : forall w : World,
  buffer_ok w ->
  buffer_ok (state_of (deliverAll FreeRTOS_CLIProcessCommand txQueueFeed fuel bytes w)).
Proof.
  induction bytes as [|c bytes IH]; intros w Hw; [exact Hw|].
  cbn [deliverAll]. unfold then_.
  pose proof (deliver_buffer_ok fuel c w Hw) as Hstep.
  destruct (deliver _ _ fuel c w) as [[|] w'|w'|w']; cbn [state_of] in *;
    [apply IH | | |]; exact Hstep.
Qed.
End AssemblerInvariant.

(** X12: the line buffer stays a well-formed C string under any input.
    Starting from a 256-byte buffer whose last byte is NUL and a cursor of
    at most 255, after any sequence of bytes delivered to the per-byte
    processing (carriage returns and the dispatch loops they start
    included, however those end) the buffer still has 256 bytes, its last
    byte is still NUL, and the cursor is still at most 255: no store goes
    outside the array. *)
Theorem line_buffer_stays_well_formed
    (interp : nat -> list Z -> Z * list Z) (txFeed : nat -> option Z)
    (fuel : nat) (bytes : list Z) (w : World) :
  buffer_ok w ->
  buffer_ok (state_of (deliverAll interp txFeed fuel bytes w)).
Proof. apply deliverAll_buffer_ok. Qed.

Lemma line_buffer_stays_well_formed_witness :
  buffer_ok (state_of (deliverAll interp_once tx_all_complete 2
                         (overflow_bytes ++ [CLI_END_CHAR; 65]) world_zero)).
Proof.
  apply (line_buffer_stays_well_formed interp_once tx_all_complete 2
           (overflow_bytes ++ [CLI_END_CHAR; 65]) world_zero).
  unfold buffer_ok. split; [unfold CLI_RX_BUFFER_SIZE; simpl; lia | split; reflexivity].
Defined.




(** X14: a character followed by a backspace. With fewer than 255
    characters held, the pair leaves the held line as it was; with 255 held
    the character is dropped and the backspace erases the last character
    of the line. *)
Theorem character_then_backspace
    (interp : nat -> list Z -> Z * list Z) (txFeed : nat -> option Z)
    (fuel : nat) (c : Z) (acc : list Z) (w : World) :
  holds w acc ->
  c <> CLI_END_CHAR ->
  c <> CLI_BS_CHAR ->
  exists w',
    deliverAll interp txFeed fuel [c; CLI_BS_CHAR] w = Done Normal w'
    /\ holds w' (if Z.of_nat (length acc) <? CLI_RX_BUFFER_SIZE - 1
                 then acc else removelast acc).
Proof.
  intros Hw Hc Hbs.
  destruct (deliverAll_holds interp txFeed fuel [c; CLI_BS_CHAR] w acc Hw)
    as (w' & Hrun & Hh & _).
  { repeat constructor; [exact Hc | discriminate]. }
  exists w'. split; [exact Hrun|].
  simpl in Hh. unfold assemble_step at 2 in Hh.
  apply Z.eqb_neq in Hbs. rewrite Hbs in Hh.
  destruct (Z.of_nat (length acc) <? CLI_RX_BUFFER_SIZE - 1);
    unfold assemble_step in Hh; simpl in Hh; [rewrite removelast_last in Hh|]; exact Hh.
Qed.

Lemma character_then_backspace_witness :
  exists w',
    deliverAll interp_once tx_all_complete 1 [65; CLI_BS_CHAR] world_zero = Done Normal w'
    /\ holds w' (if Z.of_nat (length (@nil Z)) <? CLI_RX_BUFFER_SIZE - 1
                 then [] else removelast []).
Proof.
  apply (character_then_backspace interp_once tx_all_complete 1 65 [] world_zero);
    [apply holds_nil; reflexivity | discriminate | discriminate].
Defined.

(** ** The carriage return and the interpreter *)

Lemma cstr_before_nul (acc rest : list Z) :
  Forall (fun c => c <> 0) acc -> cstr (acc ++ 0 :: rest) = acc.
Proof.
  induction 1 as [|x acc Hx _ IH]; simpl app; rewrite cstr_cons.
  - reflexivity.
  - destruct (Z.eqb_spec x 0); [contradiction|]. rewrite IH. reflexivity.
Qed.

Lemma assemble_step_nonzero (acc : list Z) (c : Z) :
  Forall (fun c => c <> 0) acc -> c <> 0 -> Forall (fun c => c <> 0) (assemble_step acc c).
Proof.
  intros Hacc Hc. unfold assemble_step.
  destruct (c =? CLI_BS_CHAR).
  - rewrite removelast_take. apply Forall_take. exact Hacc.
  - destruct (_ <? _); [|exact Hacc].
    apply Forall_app. split; [exact Hacc | repeat constructor; exact Hc].
Qed.

Lemma assemble_nonzero (bytes : list Z) : forall acc : list Z,
  Forall (fun c => c <> 0) acc ->
  Forall (fun c => c <> 0) bytes ->
  Forall (fun c => c <> 0) (fold_left assemble_step bytes acc).
Proof.
  induction bytes as [|c bytes IH]; intros acc Hacc Hall; simpl; [exact Hacc|].
  apply Forall_cons in Hall as [Hc Hall].
  apply IH; [apply assemble_step_nonzero; assumption | exact Hall].
Qed.

(** A byte other than the carriage return completes and calls nothing. *)
Lemma deliver_holds_counts
    (interp : nat -> list Z -> Z * list Z) (txFeed : nat -> option Z)
    (fuel : nat) (c : Z) (w : World) :
  c <> CLI_END_CHAR ->
  exists w',
    deliver interp txFeed fuel c w = Done Normal w'
    /\ cliCalls w' = cliCalls w.
Proof.
  intros Hc. unfold deliver, then_ at 1, act at 1, rxSwitch, switch_. simpl.
  apply Z.eqb_neq in Hc. rewrite Hc.
  unfold case_BS_CHAR, case_default, then_, ifte, act, skip, break_. simpl.
  destruct (c =? CLI_BS_CHAR);
    [destruct (0 <? rxIndex (cliInstance w))
    | destruct (rxIndex (cliInstance w) <? CLI_RX_BUFFER_SIZE - 1)];
    eexists; split; reflexivity.
Qed.

(** The first round of the dispatch loop a carriage return starts. *)
Lemma deliver_END_CHAR_first_round
    (interp : nat -> list Z -> Z * list Z) (txFeed : nat -> option Z)
    (fuel : nat) (w : World) :
  exists rest,
    trace (state_of (deliver interp txFeed (S fuel) CLI_END_CHAR w))
    = trace w ++ round_events interp (cstr (rxBuffer (cliInstance (terminate_line w))))
                   (cliCalls w) ++ rest.
Proof.
  rewrite deliver_END_CHAR_eq.
  set (w1 := terminate_line (with_cli (set_rxChar CLI_END_CHAR) w)).
  unfold dispatchLoop. cbn [do_while]. rewrite dispatchRound_eq.
  set (w2 := round_world interp w1).
  assert (Htr2 : trace w2 = trace w
            ++ round_events interp (cstr (rxBuffer (cliInstance (terminate_line w))))
                 (cliCalls w)).
  { destruct (round_world_fields interp w1) as (_ & _ & _ & _ & _ & _ & Htr). exact Htr. }
  destruct (stops_after interp txFeed w1 0).
  - exists [EvMode UART_RX_MODE]. cbn [state_of].
    unfold cliSetUartDirectionMode. cbn [Z.eqb UART_RX_MODE].
    cbn [trace with_cli set_pins log]. rewrite Htr2, <- !app_assoc. reflexivity.
  - destruct (dispatchLoop_shape interp txFeed fuel w2) as (n & Hn).
    destruct (rounds_fields interp txFeed n w2) as (_ & _ & _ & _ & _ & _ & Htrn).
    unfold dispatchLoop in Hn.
    destruct Hn as [-> | ->]; cbn [state_of];
      [unfold cliSetUartDirectionMode; cbn [Z.eqb UART_RX_MODE];
       cbn [trace with_cli set_pins log] |];
      rewrite Htrn, Htr2, <- !app_assoc; eexists; reflexivity.
Qed.

(** X15: the command the interpreter is given. For every sequence of
    bytes holding no carriage return and no NUL, delivered from an empty
    line and followed by a carriage return, the first thing the task then
    does is call the interpreter on exactly the line the assembler built,
    switch to Transmit mode and write what the interpreter left in the
    response buffer. *)
Theorem interpreter_is_given_the_assembled_line
    (interp : nat -> list Z -> Z * list Z) (txFeed : nat -> option Z)
    (fuel : nat) (bytes : list Z) (w : World) :
  rxIndex (cliInstance w) = 0 ->
  length (rxBuffer (cliInstance w)) = Z.to_nat CLI_RX_BUFFER_SIZE ->
  Forall (fun c => c <> CLI_END_CHAR) bytes ->
  Forall (fun c => c <> 0) bytes ->
  exists rest,
    trace (state_of (deliverAll interp txFeed (S fuel) (bytes ++ [CLI_END_CHAR]) w))
    = trace w ++ [EvCliProcess (assemble bytes); EvMode UART_TX_MODE;
                  EvWrite (cstr (snd (interp (cliCalls w) (assemble bytes))));
                  EvTxWait (Some 1000)] ++ rest.
Proof.
  intros Hidx Hlen Hall Hnz.
  destruct (deliverAll_holds interp txFeed (S fuel) bytes w [] (holds_nil w Hidx Hlen) Hall)
    as (w1 & Hrun & (Hidx1 & Htake1 & Hlen1 & Hacc1) & _ & Htr1).
  fold (assemble bytes) in *.
  rewrite deliverAll_app. unfold then_ at 1. rewrite Hrun.
  cbn [deliverAll]. rewrite then_stuck_or_skip.
  destruct (deliver_END_CHAR_first_round interp txFeed fuel w1) as (rest & Hrest).
  exists rest. rewrite Hrest, Htr1. unfold round_events.
  assert (Hline : cstr (rxBuffer (cliInstance (terminate_line w1))) = assemble bytes).
  { simpl. rewrite Hidx1, store_of_nat.
    rewrite <- (take_drop (S (length (assemble bytes)))
                  (<[length (assemble bytes) := CLI_NULL_CHAR]> (rxBuffer (cliInstance w1)))).
    rewrite (take_S_r _ _ CLI_NULL_CHAR) by (apply list_lookup_insert_eq; lia).
    rewrite take_insert_ge by lia. rewrite Htake1, <- app_assoc.
    apply cstr_before_nul. apply assemble_nonzero; [constructor | exact Hnz]. }
  assert (Hcalls : cliCalls w1 = cliCalls w).
  { clear - Hrun Hall. revert w Hrun Hall.
    induction bytes as [|c bytes IH]; intros w Hrun Hall.
    - simpl in Hrun. injection Hrun as <-. reflexivity.
    - apply Forall_cons in Hall as [Hc Hall].
      destruct (deliver_holds_counts interp txFeed (S fuel) c w Hc) as (w2 & Hw2 & Hc2).
      cbn [deliverAll] in Hrun. unfold then_ in Hrun. rewrite Hw2 in Hrun.
      rewrite (IH w2 Hrun Hall). exact Hc2. }
  rewrite Hline, Hcalls. reflexivity.
Qed.

Lemma interpreter_is_given_the_assembled_line_witness :
  exists rest,
    trace (state_of (deliverAll interp_once tx_all_complete (S 0)
                       (chars "helo" ++ [CLI_BS_CHAR] ++ chars "lo" ++ [CLI_END_CHAR])
                       world_zero))
    = trace world_zero
      ++ [EvCliProcess (assemble (chars "helo" ++ [CLI_BS_CHAR] ++ chars "lo"));
          EvMode UART_TX_MODE;
          EvWrite (cstr (snd (interp_once (cliCalls world_zero)
                                (assemble (chars "helo" ++ [CLI_BS_CHAR] ++ chars "lo")))));
          EvTxWait (Some 1000)] ++ rest.
Proof.
  apply (interpreter_is_given_the_assembled_line interp_once tx_all_complete 0
           (chars "helo" ++ [CLI_BS_CHAR] ++ chars "lo") world_zero eq_refl eq_refl);
    repeat constructor; vm_compute; discriminate.
Defined.

(** ** The authentication state and the per-byte processing *)

Section AuthInvisible.
Variable FreeRTOS_CLIProcessCommand : nat -> list Z -> Z * list Z.
Variable txQueueFeed : nat -> option Z.
Variable a : Z.

Lemma dispatchLoop_auth (fuel : nat) : forall w : World,
  dispatchLoop FreeRTOS_CLIProcessCommand txQueueFeed fuel (with_cli (set_authState a) w)
  = outcome_map (with_cli (set_authState a))
      (dispatchLoop FreeRTOS_CLIProcessCommand txQueueFeed fuel w).
Proof.
  induction fuel as [|fuel IH]; intros w; [reflexivity|].
  unfold dispatchLoop in *. cbn [do_while]. rewrite !dispatchRound_eq.
  change (stops_after FreeRTOS_CLIProcessCommand txQueueFeed (with_cli (set_authState a) w) 0)
    with (stops_after FreeRTOS_CLIProcessCommand txQueueFeed w 0).
  change (round_world FreeRTOS_CLIProcessCommand (with_cli (set_authState a) w))
    with (with_cli (set_authState a) (round_world FreeRTOS_CLIProcessCommand w)).
  destruct (stops_after FreeRTOS_CLIProcessCommand txQueueFeed w 0); [reflexivity | apply IH].
Qed.

Lemma deliver_auth (fuel : nat) (c : Z) (w : World) :
  deliver FreeRTOS_CLIProcessCommand txQueueFeed fuel c (with_cli (set_authState a) w)
  = outcome_map (with_cli (set_authState a))
      (deliver FreeRTOS_CLIProcessCommand txQueueFeed fuel c w).
Proof.
  destruct (Z.eqb_spec c CLI_END_CHAR) as [->|Hc].
  - rewrite !deliver_END_CHAR_eq.
    change (terminate_line (with_cli (set_rxChar CLI_END_CHAR) (with_cli (set_authState a) w)))
      with (with_cli (set_authState a)
              (terminate_line (with_cli (set_rxChar CLI_END_CHAR) w))).
    rewrite dispatchLoop_auth.
    destruct (dispatchLoop _ _ fuel _) as [[|] x|x|x]; reflexivity.
  - unfold deliver, then_, act, rxSwitch, switch_. simpl.
    apply Z.eqb_neq in Hc. rewrite Hc.
    unfold case_BS_CHAR, case_default, then_, ifte, act, skip, break_. simpl.
    destruct (c =? CLI_BS_CHAR);
      [destruct (0 <? rxIndex (cliInstance w))
      | destruct (rxIndex (cliInstance w) <? CLI_RX_BUFFER_SIZE - 1)];
      reflexivity.
Qed.

Lemma deliverAll_auth (fuel : nat) (bytes : list Z) : forall w : World,
  deliverAll FreeRTOS_CLIProcessCommand txQueueFeed fuel bytes (with_cli (set_authState a) w)
  = outcome_map (with_cli (set_authState a))
      (deliverAll FreeRTOS_CLIProcessCommand txQueueFeed fuel bytes w).
Proof.
  induction bytes as [|c bytes IH]; intros w; [reflexivity|].
  cbn [deliverAll]. unfold then_. rewrite deliver_auth.
  destruct (deliver _ _ fuel c w) as [[|] x|x|x]; simpl; try reflexivity.
  apply IH.
Qed.
End AuthInvisible.

(** X16: the per-byte processing neither reads nor writes the
    authentication state. Run on the same instance in any other
    authentication state, the processing of any sequence of bytes ends the
    same way in the same state but for that value, which it leaves as it
    was; in particular it does the same to the outside: a carriage return
    starts the command interpreter whether or not a password was accepted. *)
Theorem byte_processing_ignores_auth_state
    (interp : nat -> list Z -> Z * list Z) (txFeed : nat -> option Z)
    (a : Z) (fuel : nat) (bytes : list Z) (w : World) :
  deliverAll interp txFeed fuel bytes (with_cli (set_authState a) w)
  = outcome_map (with_cli (set_authState a)) (deliverAll interp txFeed fuel bytes w)
  /\ trace (state_of (deliverAll interp txFeed fuel bytes (with_cli (set_authState a) w)))
     = trace (state_of (deliverAll interp txFeed fuel bytes w))
  /\ authState (cliInstance
       (state_of (deliverAll interp txFeed fuel bytes (with_cli (set_authState a) w)))) = a.
Proof.
  rewrite deliverAll_auth.
  destruct (deliverAll interp txFeed fuel bytes w) as [c x|x|x]; repeat split; reflexivity.
Qed.

(** ** The command callbacks, when the message fits *)

Lemma store_bytes_inside (bytes : list Z) : forall (a : Z) (m : mem) (i : nat),
  (i < length bytes)%nat ->
  store_bytes a bytes m (a + Z.of_nat i) = nth i bytes 0.
Proof.
  induction bytes as [|b bytes IH]; intros a m i Hi; simpl in Hi; [lia|].
  destruct i as [|i]; simpl.
  - rewrite store_bytes_outside by lia. rewrite Z.add_0_r, Z.eqb_refl. reflexivity.
  - replace (a + Z.of_nat (S i)) with ((a + 1) + Z.of_nat i) by lia.
    apply IH. lia.
Qed.

(** X17: the callbacks when the message fits with its NUL, and when it
    does not fit at all. Given a non-NULL buffer of more bytes than the
    message has characters, a callback leaves in it the message followed
    by a NUL and changes no byte outside it; given a NULL buffer, or
    fewer bytes than the message has characters, it writes nothing. It
    returns pdFALSE in every case. *)
Theorem command_callbacks_copy_message
    (pcWriteBuffer xWriteBufferLen pcCommandString : Z) (m : mem) :
  let h := cliCallbackHelloCommand pcWriteBuffer xWriteBufferLen pcCommandString m in
  let v := cliCallbackVersionCommand pcWriteBuffer xWriteBufferLen pcCommandString m in
  fst h = pdFALSE /\ fst v = pdFALSE
  /\ (pcWriteBuffer <> NULL -> Z.of_nat (strlen hello) < xWriteBufferLen ->
      (forall i, (i <= strlen hello)%nat ->
         snd h (pcWriteBuffer + Z.of_nat i) = nth i hello 0)
      /\ (forall x, x < pcWriteBuffer \/ pcWriteBuffer + xWriteBufferLen <= x ->
            snd h x = m x))
  /\ (pcWriteBuffer <> NULL -> Z.of_nat (strlen version) < xWriteBufferLen ->
      (forall i, (i <= strlen version)%nat ->
         snd v (pcWriteBuffer + Z.of_nat i) = nth i version 0)
      /\ (forall x, x < pcWriteBuffer \/ pcWriteBuffer + xWriteBufferLen <= x ->
            snd v x = m x))
  /\ (pcWriteBuffer = NULL \/ 0 <= xWriteBufferLen < Z.of_nat (strlen hello) -> snd h = m)
  /\ (pcWriteBuffer = NULL \/ 0 <= xWriteBufferLen < Z.of_nat (strlen version) -> snd v = m).
Proof.
  intros h v. subst h v. unfold cliCallbackHelloCommand, cliCallbackVersionCommand.
  change (Z.of_nat (strlen hello)) with 14. change (Z.of_nat (strlen version)) with 20.
  change (strlen hello) with 14%nat. change (strlen version) with 20%nat.
  split; [repeat case_match; reflexivity|].
  split; [repeat case_match; reflexivity|].
  split; [|split; [|split]].
  - intros Hp Hlen. apply Z.eqb_neq in Hp. rewrite Hp.
    destruct (Z.eqb_spec xWriteBufferLen 0); [lia|]. simpl orb. cbv iota.
    destruct (Z.gtb_spec 14 xWriteBufferLen); [lia|]. simpl snd. unfold strcpy. split.
    + intros i Hi. rewrite store_bytes_inside.
      * change (cstr hello ++ [0]) with hello. reflexivity.
      * change (length (cstr hello ++ [0])) with 15%nat. lia.
    + intros x Hx. apply store_bytes_outside.
      change (Z.of_nat (length (cstr hello ++ [0]))) with 15. lia.
  - intros Hp Hlen. apply Z.eqb_neq in Hp. rewrite Hp.
    destruct (Z.eqb_spec xWriteBufferLen 0); [lia|]. simpl orb. cbv iota.
    destruct (Z.gtb_spec 20 xWriteBufferLen); [lia|]. simpl snd. unfold strcpy. split.
    + intros i Hi. rewrite store_bytes_inside.
      * change (cstr version ++ [0]) with version. reflexivity.
      * change (length (cstr version ++ [0])) with 21%nat. lia.
    + intros x Hx. apply store_bytes_outside.
      change (Z.of_nat (length (cstr version ++ [0]))) with 21. lia.
  - intros [Hp|Hlen].
    + apply Z.eqb_eq in Hp. rewrite Hp. reflexivity.
    + destruct ((pcWriteBuffer =? NULL) || (xWriteBufferLen =? 0)); [reflexivity|].
      destruct (Z.gtb_spec 14 xWriteBufferLen); [reflexivity | lia].
  - intros [Hp|Hlen].
    + apply Z.eqb_eq in Hp. rewrite Hp. reflexivity.
    + destruct ((pcWriteBuffer =? NULL) || (xWriteBufferLen =? 0)); [reflexivity|].
      destruct (Z.gtb_spec 20 xWriteBufferLen); [reflexivity | lia].
Qed.

Lemma command_callbacks_copy_message_witness :
  (forall i, (i <= strlen hello)%nat ->
     snd (cliCallbackHelloCommand 1000 CLI_TX_BUFFER_SIZE 0 mem_ff) (1000 + Z.of_nat i)
     = nth i hello 0)
  /\ (forall x, x < 1000 \/ 1000 + CLI_TX_BUFFER_SIZE <= x ->
        snd (cliCallbackHelloCommand 1000 CLI_TX_BUFFER_SIZE 0 mem_ff) x = mem_ff x).
Proof.
  destruct (command_callbacks_copy_message 1000 CLI_TX_BUFFER_SIZE 0 mem_ff)
    as (_ & _ & Hhello & _).
  apply Hhello; [discriminate | reflexivity].
Defined.

(** ** The task when the transport stays silent *)

Lemma authSwitch_LOG_IN_starved (txFeed : nat -> option Z) (w : World) :
  authState (cliInstance w) = FSM_LOG_IN ->
  txFeed (txWaits w) = None ->
  authSwitch txFeed w =
    Blocked (sending PROMPT_PASSWORD (with_cli (set_rxBuffer (memset0 CLI_RX_BUFFER_SIZE)) w)).
Proof.
  intros H Hfeed. rewrite auth_arms. cbv zeta. rewrite H. simpl Z.eqb. cbv iota.
  unfold auth_LOG_IN, switch_, then_ at 1, act at 1.
  unfold then_ at 1.
  rewrite (cliSendMessage_starved txFeed PROMPT_PASSWORD) by exact Hfeed.
  reflexivity.
Qed.

(** X18: when no status byte answers the write of the prompt, the session
    task is suspended for good inside its first [cliSendMessage]: the
    prompt has been written, the UART is left in Transmit mode, the
    authentication state is still FSM_LOG_IN, and no byte has been taken
    from the receive queue. *)
Theorem cliTask_hangs_without_status
    (interp : nat -> list Z -> Z * list Z) (txFeed rxFeed : nat -> option Z)
    (fuel : nat) (w : World) :
  txFeed (txWaits w) = None ->
  exists w',
    cliTask interp txFeed rxFeed (S fuel) w = Blocked w'
    /\ trace w' = trace w ++ [EvMode UART_TX_MODE; EvWrite (cstr PROMPT_PASSWORD);
                              EvTxWait None]
    /\ in_rx_mode w' = false
    /\ authState (cliInstance w') = FSM_LOG_IN
    /\ rxWaits w' = rxWaits w.
Proof.
  intros Hfeed. eexists. rewrite cliTask_is_cliAuthenticate.
  unfold cliAuthenticate. cbn [do_while].
  rewrite (authSwitch_LOG_IN_starved txFeed (with_cli (set_authState FSM_LOG_IN) w)
             eq_refl Hfeed).
  split; [reflexivity|]. unfold sending. simpl. rewrite <- !app_assoc.
  repeat split; reflexivity.
Qed.

Lemma cliTask_hangs_without_status_witness :
  exists w',
    cliTask interp_once tx_first_timeout (fun _ => Some 65) (S 3) world_zero = Blocked w'
    /\ trace w' = trace world_zero ++ [EvMode UART_TX_MODE; EvWrite (cstr PROMPT_PASSWORD);
                                       EvTxWait None]
    /\ in_rx_mode w' = false
    /\ authState (cliInstance w') = FSM_LOG_IN
    /\ rxWaits w' = rxWaits world_zero.
Proof.
  apply (cliTask_hangs_without_status interp_once tx_first_timeout (fun _ => Some 65)
           3 world_zero).
  reflexivity.
Defined.

(** ** The status of start-up *)

(** X19: the status [CliStartup] returns is decided by the first step that
    fails, in the order of the steps: 0 when the descriptor is refused or
    NULL, -1 when a queue is not created, -2 when a callback is not
    registered, -3 when the UART is not enabled, -4 when the task is not
    created, and 0 when every step succeeds. A later failure never masks an
    earlier one, and the state the call starts in plays no part. *)
Theorem CliStartup_status_by_first_failure (e : StartupEnv) (w : World) :
  fst (CliStartup e w) =
    if negb (fst (usart_async_get_io_descriptor e) =? ERR_NONE)
       || (snd (usart_async_get_io_descriptor e) =? NULL) then 0
    else if (xQueueCreate_rx e =? NULL) || (xQueueCreate_tx e =? NULL) then -1
    else if negb (register_RXC_CB e =? ERR_NONE)
            || negb (register_TXC_CB e =? ERR_NONE)
            || negb (register_ERROR_CB e =? ERR_NONE) then -2
    else if negb (usart_async_enable e =? ERR_NONE) then -3
    else if negb (fst (xTaskCreate e) =? pdPASS) then -4
    else 0.
Proof. apply CliStartup_status. Qed.
